(** * Shapely [shapely/geometry/base.py]: handles, factory, guards and part sequences

    A shallow embedding of the base geometry module.  The native engine
    ([lgeos]) is an interface, the operation table ([imp]) a finite map keyed by
    operation name, Python exceptions an error result, and the one side effect
    of the module, the release of native storage, a state that every
    computation threads. *)

From Stdlib Require Import ZArith Floats.
From stdpp Require Import base option list strings gmap.

Open Scope string_scope.
Open Scope list_scope.
Open Scope Z_scope.

(** ** Python exceptions *)

(** The exception classes the module raises or lets through, with the message
    of the raise site. *)
Inductive exn : Type :=
| ValueError (msg : string)
| IndexError (msg : string)
| NotImplementedError (msg : string)
| AttributeError (msg : string)
| KeyError (key : string)
| TypeError (msg : string)
| OverflowError (msg : string).

Inductive result (A : Type) : Type :=
| Ok (a : A)
| Raise (e : exn).
Arguments Ok {A} a.
Arguments Raise {A} e.

(** ** Raw references and the engine *)

(** An address of engine storage.  ctypes hands a [c_void_p] result back as
    [None] when it is NULL and as a non-zero integer otherwise, so a raw
    reference is an optional non-zero address. *)
Definition ptr : Type := positive.
Definition raw : Type := option ptr.

(** [g is None] *)
Definition is_None (g : raw) : bool :=
  match g with None => true | Some _ => false end.

(** [bool(g)], the test behind [not g] *)
Definition truthy (g : raw) : bool :=
  match g with None => false | Some _ => true end.

(** The part of [shapely.geos.lgeos] the module calls.  [heap] is the engine's
    storage; queries read it and [GEOSGeom_destroy] changes it. *)
Class GEOS : Type := {
  heap : Type;
  GEOSGeomTypeId : heap -> raw -> Z;
  GEOSGetNumGeometries : heap -> raw -> Z;
  GEOSGetGeometryN : heap -> raw -> Z -> raw;
  GEOSGeom_destroy : heap -> ptr -> heap
}.

(** The state a computation threads: the engine's storage and the trace of
    [GEOSGeom_destroy] calls made so far, oldest first. *)
Record world `{GEOS} : Type := World {
  w_heap : heap;
  w_destroyed : list ptr
}.

(** ** The computation monad: state and exceptions *)

Definition M `{GEOS} (A : Type) : Type := world -> result A * world.

Definition M_ret `{GEOS} {A} (a : A) : M A := fun s => (Ok a, s).
Definition raise `{GEOS} {A} (e : exn) : M A := fun s => (Raise e, s).
Definition M_bind `{GEOS} {A B} (k : A -> M B) (m : M A) : M B :=
  fun s => match m s with
           | (Ok a, s') => k a s'
           | (Raise e, s') => (Raise e, s')
           end.

#[global] Instance M_mret `{GEOS} : MRet M := @M_ret _.
#[global] Instance M_mbind `{GEOS} : MBind M := @M_bind _.

(** Read the engine's storage. *)
Definition query `{GEOS} {A} (f : heap -> A) : M A :=
  fun s => (Ok (f (w_heap s)), s).

(** [lgeos.GEOSGeom_destroy(p)] *)
Definition destroy `{GEOS} (p : ptr) : M unit :=
  fun s => (Ok tt, {| w_heap := GEOSGeom_destroy (w_heap s) p;
                      w_destroyed := w_destroyed s ++ [p] |}).

(** Lift a pure result into a computation. *)
Definition lift `{GEOS} {A} (r : result A) : M A := fun s => (r, s).

(** ** Python values used by the module *)

(** [l[i]] on a Python list: a negative index counts from the end, and an
    index outside [-len, len) raises [IndexError]. *)
Definition list_getitem {A} (l : list A) (i : Z) : result A :=
  let n := Z.of_nat (length l) in
  let j := if i <? 0 then i + n else i in
  if (j <? 0) || (n <=? j) then Raise (IndexError "list index out of range")
  else match l !! Z.to_nat j with
       | Some x => Ok x
       | None => Raise (IndexError "list index out of range")
       end.

(** [float(n)] for a Python integer: the nearest binary64 value, ties to even,
    and [OverflowError] when that would be an infinity. *)
Definition float_of_int (n : Z) : result float :=
  let x := SF2Prim (binary_normalize prec emax n 0 false) in
  if is_infinity x then Raise (OverflowError "int too large to convert to float")
  else Ok x.

(** The C library's [pow] on doubles, which Python's float power calls. *)
Class Libm : Type := { pow : float -> float -> float }.

(** A Python number: an integer of any size or a float. *)
Inductive number : Type :=
| NInt (n : Z)
| NFloat (x : float).

(** [10 ** e] for an integer [e]: an exact integer for [e >= 0], and the float
    power [pow(10.0, float(e))] for a negative exponent. *)
Definition ten_pow `{Libm} (e : Z) : result number :=
  if 0 <=? e then Ok (NInt (10 ^ e))
  else match float_of_int e with
       | Ok y => Ok (NFloat (pow 10%float y))
       | Raise err => Raise err
       end.

(** [0.5 * x]: an integer operand is converted to a float first. *)
Definition half_times (x : number) : result float :=
  match x with
  | NInt n => match float_of_int n with
              | Ok y => Ok (0.5 * y)%float
              | Raise err => Raise err
              end
  | NFloat y => Ok (0.5 * y)%float
  end.

(** What an operation-table entry hands back when it is not a raw reference. *)
Inductive scalar : Type :=
| SNone
| SBool (b : bool)
| SInt (n : Z)
| SFloat (x : float)
| SStr (s : string)
| STuple (xs : list float).

(** [bool(v)] *)
Definition bool_of (v : scalar) : bool :=
  match v with
  | SNone => false
  | SBool b => b
  | SInt n => negb (n =? 0)
  | SFloat x => negb (x =? 0)%float
  | SStr s => negb (String.eqb s "")
  | STuple xs => match xs with [] => false | _ => true end
  end.

(** ** The type table *)

Definition GEOMETRY_TYPES : list string := [
    "Point";
    "LineString";
    "LinearRing";
    "Polygon";
    "MultiPoint";
    "MultiLineString";
    "MultiPolygon";
    "GeometryCollection"
  ].

(** The classes an instance can have: the base class and the eight concrete
    classes of the package [shapely.geometry]. *)
Inductive pyclass : Type :=
| C_BaseGeometry
| C_Point
| C_LineString
| C_LinearRing
| C_Polygon
| C_MultiPoint
| C_MultiLineString
| C_MultiPolygon
| C_GeometryCollection.

(** Modelled from the spec: the package [shapely.geometry], which is not part
    of this module.  It is the type registry: each canonical type name is bound
    to the concrete class of that name. *)
Definition shapely_geometry : gmap string pyclass :=
  list_to_map [
    ("Point", C_Point);
    ("LineString", C_LineString);
    ("LinearRing", C_LinearRing);
    ("Polygon", C_Polygon);
    ("MultiPoint", C_MultiPoint);
    ("MultiLineString", C_MultiLineString);
    ("MultiPolygon", C_MultiPolygon);
    ("GeometryCollection", C_GeometryCollection)
  ].

(** [getattr(mod, name)] on that package. *)
Definition getattr_shapely_geometry (name : string) : result pyclass :=
  match shapely_geometry !! name with
  | Some c => Ok c
  | None => Raise (AttributeError name)
  end.

(** ** class BaseGeometry: instance state *)

Module Instance.

(** The attributes of a geometry object that the module reads or writes.
    [_owned] is true when the engine storage belongs to another object, as for
    a member of a multi-part geometry: such an object aliases the storage and
    does not own it.  ([_ctypes_data] and [_crs] are never touched here.) *)
#[local] Unset Elimination Schemes.
Inductive wrapper : Type := Wrapper {
  __class__ : pyclass;
  __geom__ : raw;
  __p__ : option wrapper;
  _ndim : option Z;
  _owned : bool
}.
#[local] Set Elimination Schemes.

Definition set___class__ (c : pyclass) (w : wrapper) : wrapper :=
  Wrapper c (__geom__ w) (__p__ w) (_ndim w) (_owned w).
Definition set___geom__ (g : raw) (w : wrapper) : wrapper :=
  Wrapper (__class__ w) g (__p__ w) (_ndim w) (_owned w).
Definition set___p__ (p : option wrapper) (w : wrapper) : wrapper :=
  Wrapper (__class__ w) (__geom__ w) p (_ndim w) (_owned w).
Definition set__ndim (n : option Z) (w : wrapper) : wrapper :=
  Wrapper (__class__ w) (__geom__ w) (__p__ w) n (_owned w).
Definition set__owned (b : bool) (w : wrapper) : wrapper :=
  Wrapper (__class__ w) (__geom__ w) (__p__ w) (_ndim w) b.

(** A new object of class [c] before [__init__] runs: every attribute is the
    class attribute of [BaseGeometry]. *)
Definition new (c : pyclass) : wrapper :=
  {| __class__ := c; __geom__ := None; __p__ := None; _ndim := None;
     _owned := false |}.

End Instance.
Export Instance.

(** The first part of the class body: construction, destruction and the
    [_geom] property. *)
Module BaseGeometryCore.

Definition __init__ (self : wrapper) : wrapper :=
  set___geom__ None self.

(** The [_geom] property. *)
Definition _get_geom (self : wrapper) : raw := __geom__ self.
Definition _set_geom (self : wrapper) (val : raw) : wrapper :=
  set___geom__ val self.

(** [__del__]: the storage is released when the object has a reference and
    does not alias another object's storage; both references are then
    cleared.  The result is the object after the call. *)
Definition __del__ `{GEOS} (self : wrapper) : M wrapper :=
  _ ← match __geom__ self with
      | Some p => if negb (_owned self) then destroy p else mret tt
      | None => mret tt
      end;
  let self := set___geom__ None self in
  let self := set___p__ None self in
  mret self.

End BaseGeometryCore.

(** ** Module functions *)

Definition geometry_type_name `{GEOS} (g : raw) : M string :=
  if is_None g then raise (ValueError "Null geometry has no type")
  else
    tag ← query (fun h => GEOSGeomTypeId h g);
    lift (list_getitem GEOMETRY_TYPES tag).

Definition geom_factory `{GEOS} (g : raw) (parent : option wrapper) : M wrapper :=
  if negb (truthy g) then
    raise (ValueError "No Shapely geometry can be created from null value")
  else
    let ob := BaseGeometryCore.__init__ (new C_BaseGeometry) in
    geom_type ← geometry_type_name g;
    c ← lift (getattr_shapely_geometry geom_type);
    let ob := set___class__ c ob in
    let ob := set___geom__ g ob in
    let ob := set___p__ parent ob in
    let ob := set__ndim (Some 2) ob in
    mret ob.

(** The decorator: the wrapped method runs only on a receiver whose [_geom]
    is true. *)
Definition exceptNull `{GEOS} {A} (func : wrapper -> M A) : wrapper -> M A :=
  fun self =>
    if negb (truthy (BaseGeometryCore._get_geom self)) then
      raise (ValueError "Null geometry supports no operations")
    else func self.

(** ** The operation table *)

(** An entry of the table, by the arguments it is called with and by what it
    hands back: a scalar, or a raw reference that the caller wraps. *)
Inductive op `{GEOS} : Type :=
| UnaryScalar (f : wrapper -> M scalar)
| BinaryScalar (f : wrapper -> wrapper -> M scalar)
| ToleranceScalar (f : wrapper -> wrapper -> float -> M scalar)
| UnaryTopo (f : wrapper -> M raw)
| BinaryTopo (f : wrapper -> wrapper -> M raw)
| RealTopo (f : wrapper -> float -> M raw)
| BufferTopo (f : wrapper -> float -> Z -> M raw).

(** The backend: the class attribute [imp], a mapping from operation name to
    entry. *)
Class Implementation `{GEOS} : Type := { imp : gmap string op }.

Definition not_callable_as `{GEOS} {A} (key : string) : M A :=
  raise (TypeError key).

(** [self.imp[key](self)] and its variants.  A missing key raises [KeyError];
    an entry that does not take the arguments of the call raises
    [TypeError]. *)
Definition imp_unary `{Implementation} (key : string) (self : wrapper) : M scalar :=
  match imp !! key with
  | Some (UnaryScalar f) => f self
  | Some _ => not_callable_as key
  | None => raise (KeyError key)
  end.

Definition imp_binary `{Implementation} (key : string) (self other : wrapper)
  : M scalar :=
  match imp !! key with
  | Some (BinaryScalar f) => f self other
  | Some _ => not_callable_as key
  | None => raise (KeyError key)
  end.

Definition imp_tolerance `{Implementation} (key : string) (self other : wrapper)
    (tolerance : float) : M scalar :=
  match imp !! key with
  | Some (ToleranceScalar f) => f self other tolerance
  | Some _ => not_callable_as key
  | None => raise (KeyError key)
  end.

Definition imp_unary_topo `{Implementation} (key : string) (self : wrapper)
  : M raw :=
  match imp !! key with
  | Some (UnaryTopo f) => f self
  | Some _ => not_callable_as key
  | None => raise (KeyError key)
  end.

Definition imp_binary_topo `{Implementation} (key : string)
    (self other : wrapper) : M raw :=
  match imp !! key with
  | Some (BinaryTopo f) => f self other
  | Some _ => not_callable_as key
  | None => raise (KeyError key)
  end.

Definition imp_real_topo `{Implementation} (key : string) (self : wrapper)
    (x : float) : M raw :=
  match imp !! key with
  | Some (RealTopo f) => f self x
  | Some _ => not_callable_as key
  | None => raise (KeyError key)
  end.

Definition imp_buffer_topo `{Implementation} (key : string) (self : wrapper)
    (distance : float) (quadsegs : Z) : M raw :=
  match imp !! key with
  | Some (BufferTopo f) => f self distance quadsegs
  | Some _ => not_callable_as key
  | None => raise (KeyError key)
  end.

(** ** Properties *)

(** A [property] object: a getter and a setter, either of which may be
    missing. *)
Record property `{GEOS} (A B : Type) : Type := Property {
  fget : option (wrapper -> M A);
  fset : option (wrapper -> B -> M unit)
}.
Arguments Property {_ A B} fget fset.
Arguments fget {_ A B} p.
Arguments fset {_ A B} p.

(** Reading the attribute [self.name]. *)
Definition getattr `{GEOS} {A B} (p : property A B) (self : wrapper) : M A :=
  match fget p with
  | Some f => f self
  | None => raise (AttributeError "unreadable attribute")
  end.

(** Assigning [self.name = value]. *)
Definition setattr `{GEOS} {A B} (p : property A B) (self : wrapper) (value : B)
  : M unit :=
  match fset p with
  | Some f => f self value
  | None => raise (AttributeError "can't set attribute")
  end.

(** The view [shapely.coords.CoordinateSequence(parent)], and what a caller
    assigns to [coords]. *)
Inductive coordinate_sequence : Type :=
| CoordinateSequence (parent : wrapper).

Definition coordinates : Type := list (list float).

(** The ctypes buffer and the array-protocol dictionary are opaque here. *)
Inductive buffer_object : Type := Buffer.

(** ** The serializer *)

(** A byte string. *)
Definition bytes : Type := string.

(** The part of [shapely.wkb] the class calls: [dumps] encodes a geometry,
    [deserialize] asks the engine for new storage holding the decoded
    geometry. *)
Class WKB `{GEOS} : Type := {
  wkb_dumps : wrapper -> M bytes;
  wkb_deserialize : bytes -> M raw
}.

(** The dictionary of the array protocol. *)
Record array_interface : Type := ArrayInterface {
  ai_version : Z;
  ai_typestr : string;
  ai_data : buffer_object
}.

(** ** class BaseGeometry: methods *)

Module BaseGeometry.

Include BaseGeometryCore.

Definition ctypes `{GEOS} : property buffer_object unit :=
  Property (Some (fun self => raise (NotImplementedError ""))) None.

Definition __array_interface__ `{GEOS} : property buffer_object unit :=
  Property (Some (fun self => raise (NotImplementedError ""))) None.

Definition _get_coords `{GEOS} : wrapper -> M coordinate_sequence :=
  exceptNull (fun self => mret (CoordinateSequence self)).

Definition _set_coords `{GEOS} (self : wrapper) (ob : coordinates) : M unit :=
  raise (NotImplementedError "set_coords must be provided by derived classes").

Definition coords `{GEOS} : property coordinate_sequence coordinates :=
  Property (Some _get_coords) (Some _set_coords).

Definition geometryType `{GEOS} : wrapper -> M string :=
  exceptNull (fun self => geometry_type_name (_get_geom self)).

Definition type `{GEOS} : property string unit :=
  Property (Some geometryType) None.

Definition geom_type `{GEOS} : property string unit :=
  Property (Some geometryType) None.

(** Real-valued properties and methods *)

Definition area `{Implementation} (self : wrapper) : M scalar :=
  imp_unary "area" self.

Definition distance `{Implementation} (self other : wrapper) : M scalar :=
  imp_binary "distance" self other.

Definition length `{Implementation} (self : wrapper) : M scalar :=
  imp_unary "length" self.

(** Topological properties *)

Definition boundary `{Implementation} (self : wrapper) : M wrapper :=
  g ← imp_unary_topo "boundary" self; geom_factory g None.

Definition bounds `{Implementation} (self : wrapper) : M scalar :=
  imp_unary "bounds" self.

Definition centroid `{Implementation} (self : wrapper) : M wrapper :=
  g ← imp_unary_topo "centroid" self; geom_factory g None.

Definition convex_hull `{Implementation} (self : wrapper) : M wrapper :=
  g ← imp_unary_topo "convex_hull" self; geom_factory g None.

Definition envelope `{Implementation} (self : wrapper) : M wrapper :=
  g ← imp_unary_topo "envelope" self; geom_factory g None.

Definition buffer `{Implementation} (self : wrapper) (distance : float)
    (quadsegs : Z) : M wrapper :=
  g ← imp_buffer_topo "buffer" self distance quadsegs; geom_factory g None.

Definition simplify `{Implementation} (self : wrapper) (tolerance : float)
    (preserve_topology : bool) : M wrapper :=
  let key := if preserve_topology then "topology_preserve_simplify"
             else "simplify" in
  g ← imp_real_topo key self tolerance; geom_factory g None.

(** Binary operations *)

Definition difference `{Implementation} (self other : wrapper) : M wrapper :=
  g ← imp_binary_topo "difference" self other; geom_factory g None.

Definition intersection `{Implementation} (self other : wrapper) : M wrapper :=
  g ← imp_binary_topo "intersection" self other; geom_factory g None.

Definition symmetric_difference `{Implementation} (self other : wrapper)
  : M wrapper :=
  g ← imp_binary_topo "symmetric_difference" self other; geom_factory g None.

Definition union `{Implementation} (self other : wrapper) : M wrapper :=
  g ← imp_binary_topo "union" self other; geom_factory g None.

(** Unary predicates *)

Definition unary_predicate `{Implementation} (key : string) (self : wrapper)
  : M bool :=
  v ← imp_unary key self; mret (bool_of v).

Definition has_z `{Implementation} := unary_predicate "has_z".
Definition is_empty `{Implementation} := unary_predicate "is_empty".
Definition is_ring `{Implementation} := unary_predicate "is_ring".
Definition is_simple `{Implementation} := unary_predicate "is_simple".
Definition is_valid `{Implementation} := unary_predicate "is_valid".

(** Binary predicates *)

Definition relate `{Implementation} (self other : wrapper) : M scalar :=
  imp_binary "relate" self other.

Definition binary_predicate `{Implementation} (key : string)
    (self other : wrapper) : M bool :=
  v ← imp_binary key self other; mret (bool_of v).

Definition contains `{Implementation} := binary_predicate "contains".
Definition crosses `{Implementation} := binary_predicate "crosses".
Definition disjoint `{Implementation} := binary_predicate "disjoint".
Definition equals `{Implementation} := binary_predicate "equals".
Definition intersects `{Implementation} := binary_predicate "intersects".
Definition overlaps `{Implementation} := binary_predicate "overlaps".
Definition touches `{Implementation} := binary_predicate "touches".
Definition within `{Implementation} := binary_predicate "within".

Definition equals_exact `{Implementation} (self other : wrapper)
    (tolerance : float) : M bool :=
  v ← imp_tolerance "equals_exact" self other tolerance; mret (bool_of v).

(** [0.5 * 10**(-decimal)] *)
Definition tolerance_of_decimal `{Libm} (decimal : Z) : result float :=
  match ten_pow (- decimal) with
  | Ok x => half_times x
  | Raise err => Raise err
  end.

Definition almost_equals `{Implementation} `{Libm} (self other : wrapper)
    (decimal : Z) : M bool :=
  tolerance ← lift (tolerance_of_decimal decimal);
  equals_exact self other tolerance.

(** [almost_equals(other)], with the default [decimal=6]. *)
Definition almost_equals_default `{Implementation} `{Libm} (self other : wrapper)
  : M bool :=
  almost_equals self other 6.

(** Linear referencing *)

Definition project `{Implementation} (self other : wrapper) (normalized : bool)
  : M scalar :=
  let key := if normalized then "project_normalized" else "project" in
  imp_binary key self other.

Definition interpolate `{Implementation} (self : wrapper) (distance : float)
    (normalized : bool) : M wrapper :=
  let key := if normalized then "interpolate_normalized" else "interpolate" in
  g ← imp_real_topo key self distance; geom_factory g None.

(** Pickling *)

Definition to_wkb `{WKB} (self : wrapper) : M bytes :=
  wkb_dumps self.

Definition __reduce__ `{WKB} (self : wrapper) : M (pyclass * bytes) :=
  state ← to_wkb self;
  mret (Instance.__class__ self, state).


(** [array_interface_base].  [byteorder] is [sys.byteorder]; [self.ctypes] is
    looked up on the class of the receiver, so the property of that class is
    an argument. *)
Definition array_interface_base `{GEOS} (byteorder : string)
    (ctypes_of_class : property buffer_object unit) (self : wrapper)
  : M array_interface :=
  typestr ← (if String.eqb byteorder "little" then mret "<f8"
             else if String.eqb byteorder "big" then mret ">f8"
             else raise (ValueError
                    "Unsupported byteorder: neither little nor big-endian"));
  data ← getattr ctypes_of_class self;
  mret {| ai_version := 3; ai_typestr := typestr; ai_data := data |}.

End BaseGeometry.

(** ** class BaseMultiPartGeometry: the overrides *)

Module BaseMultiPartGeometry.

Definition ctypes `{GEOS} : property buffer_object unit :=
  Property
    (Some (fun self => raise (NotImplementedError
       "Multi-part geometries have no ctypes representations")))
    None.

Definition __array_interface__ `{GEOS} : property buffer_object unit :=
  Property
    (Some (fun self => raise (NotImplementedError
       "Multi-part geometries do not themselves provide the array interface")))
    None.

Definition _get_coords `{GEOS} (self : wrapper) : M coordinate_sequence :=
  raise (NotImplementedError
    "Sub-geometries may have coordinate sequences, but collections do not").

Definition _set_coords `{GEOS} (self : wrapper) (ob : coordinates) : M unit :=
  raise (NotImplementedError
    "Sub-geometries may have coordinate sequences, but collections do not").

Definition coords `{GEOS} : property coordinate_sequence coordinates :=
  Property
    (Some (fun self => raise (NotImplementedError
       "Multi-part geometries do not provide a coordinate sequence")))
    None.

End BaseMultiPartGeometry.

(** ** class GeometrySequence and class HeterogeneousGeometrySequence *)

Inductive sequence_class : Type :=
| C_GeometrySequence
| C_HeterogeneousGeometrySequence.

Module GeometrySequence.

(** The state of a sequence object.  [_factory] is the element type, called
    without arguments to make an element; [__p__] is the parent geometry, in
    the state it has when the sequence is used. *)
Record t `{GEOS} : Type := Sequence {
  __class__ : sequence_class;
  _factory : option (M wrapper);
  _geom : raw;
  __p__ : wrapper;
  _ndim : option Z
}.

Definition __init__ `{GEOS} (parent : wrapper) (type : option (M wrapper)) : t :=
  {| __class__ := C_GeometrySequence; _factory := type; _geom := None;
     __p__ := parent; _ndim := None |}.

Definition _update `{GEOS} (self : t) : t :=
  {| __class__ := __class__ self; _factory := _factory self;
     _geom := BaseGeometry._get_geom (__p__ self);
     __p__ := __p__ self;
     _ndim := Instance._ndim (__p__ self) |}.

Definition _get_geom_item `{GEOS} (self : t) (i : Z) : M wrapper :=
  g ← match _factory self with
      | Some make => make
      | None => raise (TypeError "'NoneType' object is not callable")
      end;
  let g := set__owned true g in
  sub ← query (fun h => GEOSGetGeometryN h (_geom self) i);
  let g := BaseGeometry._set_geom g sub in
  mret g.

End GeometrySequence.

Module HeterogeneousGeometrySequence.

Definition __init__ `{GEOS} (parent : wrapper) : GeometrySequence.t :=
  let self := GeometrySequence.__init__ parent None in
  {| GeometrySequence.__class__ := C_HeterogeneousGeometrySequence;
     GeometrySequence._factory := GeometrySequence._factory self;
     GeometrySequence._geom := GeometrySequence._geom self;
     GeometrySequence.__p__ := GeometrySequence.__p__ self;
     GeometrySequence._ndim := GeometrySequence._ndim self |}.

Definition _get_geom_item `{GEOS} (self : GeometrySequence.t) (i : Z)
  : M wrapper :=
  sub ← query (fun h => GEOSGetGeometryN h (GeometrySequence._geom self) i);
  g ← geom_factory sub None;
  let g := set__owned true g in
  mret g.

End HeterogeneousGeometrySequence.

(** The methods of [GeometrySequence] that both classes run.  They call
    [self._get_geom_item], which is looked up on the class of the receiver.
    A method that updates the sequence returns it next to its value. *)
Module PartSequence.

Import GeometrySequence.

Definition _get_geom_item `{GEOS} (self : t) (i : Z) : M wrapper :=
  match __class__ self with
  | C_GeometrySequence => GeometrySequence._get_geom_item self i
  | C_HeterogeneousGeometrySequence =>
      HeterogeneousGeometrySequence._get_geom_item self i
  end.

Definition __len__ `{GEOS} (self : t) : M (Z * t) :=
  let self := _update self in
  n ← query (fun h => GEOSGetNumGeometries h (_geom self));
  mret (n, self).

(** [for i in range(n)]: the items at 0, 1, ..., n-1 in turn. *)
Fixpoint items_from `{GEOS} (self : t) (i : Z) (count : nat)
  : M (list wrapper) :=
  match count with
  | O => mret []
  | S count' =>
      g ← _get_geom_item self i;
      gs ← items_from self (i + 1) count';
      mret (g :: gs)
  end.

(** The generator, run to its end. *)
Definition __iter__ `{GEOS} (self : t) : M (list wrapper * t) :=
  let self := _update self in
  r ← __len__ self;
  let '(n, self) := r in
  gs ← items_from self 0 (Z.to_nat n);
  mret (gs, self).

Definition __getitem__ `{GEOS} (self : t) (i : Z) : M (wrapper * t) :=
  let self := _update self in
  r ← __len__ self;
  let '(M, self) := r in (* the local [M] of the source: the count *)
  if (i + M <? 0) || (M <=? i) then raise (IndexError "index out of range")
  else
    let ii := if i <? 0 then M + i else i in
    g ← _get_geom_item self i;
    mret (g, self).

End PartSequence.

(** ** The methods that wrap a backend result *)

(** The eleven methods of [BaseGeometry] that pass a raw result of the backend
    to the factory, each with its arguments. *)
Inductive topological : Type :=
| T_boundary
| T_centroid
| T_convex_hull
| T_envelope
| T_buffer (distance : float) (quadsegs : Z)
| T_simplify (tolerance : float) (preserve_topology : bool)
| T_difference (other : wrapper)
| T_intersection (other : wrapper)
| T_symmetric_difference (other : wrapper)
| T_union (other : wrapper)
| T_interpolate (distance : float) (normalized : bool).

(** The method call. *)
Definition call_topological `{Implementation} (t : topological)
    (self : wrapper) : M wrapper :=
  match t with
  | T_boundary => BaseGeometry.boundary self
  | T_centroid => BaseGeometry.centroid self
  | T_convex_hull => BaseGeometry.convex_hull self
  | T_envelope => BaseGeometry.envelope self
  | T_buffer distance quadsegs => BaseGeometry.buffer self distance quadsegs
  | T_simplify tolerance preserve_topology =>
      BaseGeometry.simplify self tolerance preserve_topology
  | T_difference other => BaseGeometry.difference self other
  | T_intersection other => BaseGeometry.intersection self other
  | T_symmetric_difference other =>
      BaseGeometry.symmetric_difference self other
  | T_union other => BaseGeometry.union self other
  | T_interpolate distance normalized =>
      BaseGeometry.interpolate self distance normalized
  end.

(** The backend call inside the method: the argument of [geom_factory]. *)
Definition backend_result `{Implementation} (t : topological) (self : wrapper)
  : M raw :=
  match t with
  | T_boundary => imp_unary_topo "boundary" self
  | T_centroid => imp_unary_topo "centroid" self
  | T_convex_hull => imp_unary_topo "convex_hull" self
  | T_envelope => imp_unary_topo "envelope" self
  | T_buffer distance quadsegs =>
      imp_buffer_topo "buffer" self distance quadsegs
  | T_simplify tolerance preserve_topology =>
      imp_real_topo (if preserve_topology then "topology_preserve_simplify"
                     else "simplify") self tolerance
  | T_difference other => imp_binary_topo "difference" self other
  | T_intersection other => imp_binary_topo "intersection" self other
  | T_symmetric_difference other =>
      imp_binary_topo "symmetric_difference" self other
  | T_union other => imp_binary_topo "union" self other
  | T_interpolate distance normalized =>
      imp_real_topo (if normalized then "interpolate_normalized"
                     else "interpolate") self distance
  end.

(** The key under which that backend call looks up the table. *)
Definition topological_key (t : topological) : string :=
  match t with
  | T_boundary => "boundary"
  | T_centroid => "centroid"
  | T_convex_hull => "convex_hull"
  | T_envelope => "envelope"
  | T_buffer _ _ => "buffer"
  | T_simplify _ preserve_topology =>
      if preserve_topology then "topology_preserve_simplify" else "simplify"
  | T_difference _ => "difference"
  | T_intersection _ => "intersection"
  | T_symmetric_difference _ => "symmetric_difference"
  | T_union _ => "union"
  | T_interpolate _ normalized =>
      if normalized then "interpolate_normalized" else "interpolate"
  end.

(** A copy of a sequence with other cached values. *)
Definition with_cache `{GEOS} (self : GeometrySequence.t) (g : raw)
    (ndim : option Z) : GeometrySequence.t :=
  {| GeometrySequence.__class__ := GeometrySequence.__class__ self;
     GeometrySequence._factory := GeometrySequence._factory self;
     GeometrySequence._geom := g;
     GeometrySequence.__p__ := GeometrySequence.__p__ self;
     GeometrySequence._ndim := ndim |}.

(** The member count the engine reports for the parent of a sequence. *)
Definition child_count `{GEOS} (self : GeometrySequence.t) (s : world) : Z :=
  GEOSGetNumGeometries (w_heap s)
    (__geom__ (GeometrySequence.__p__ self)).

(** ** The error taxonomy

    The spec names errors by the situation; the code raises a Python exception
    with the message of the raise site. *)

(** An operation was invoked on a wrapper with no installed handle: the guard
    [exceptNull]. *)
Definition NullGeometryError (e : exn) : bool :=
  match e with
  | ValueError msg => String.eqb msg "Null geometry supports no operations"
  | _ => false
  end.

(** A null reference where a real one was required: the type-name query and
    the factory. *)
Definition InvalidGeometryError (e : exn) : bool :=
  match e with
  | ValueError msg =>
      String.eqb msg "Null geometry has no type"
      || String.eqb msg "No Shapely geometry can be created from null value"
  | _ => false
  end.

(** The operation does not apply to the shape of the wrapper. *)
Definition UnsupportedOperationError (e : exn) : bool :=
  match e with
  | NotImplementedError _ => true
  | _ => false
  end.

(** Part-sequence indexing. *)
Definition IndexOutOfRange (e : exn) : bool :=
  match e with
  | IndexError msg => String.eqb msg "index out of range"
  | _ => false
  end.

(** An unchecked failure: the exception of a failed list lookup, which no
    handler in the module catches. *)
Definition UncheckedFailure (e : exn) : bool :=
  match e with
  | IndexError msg => String.eqb msg "list index out of range"
  | _ => false
  end.

(** [m] run in [s] raises an exception of kind [kind]. *)
Definition fails_with `{GEOS} {A} (kind : exn -> bool) (m : M A) (s : world)
  : Prop :=
  exists e s', m s = (Raise e, s') /\ kind e = true.

(** [m] run in [s] returns [a] and leaves the state [s']. *)
Definition returns `{GEOS} {A} (m : M A) (s : world) (a : A) (s' : world)
  : Prop :=
  m s = (Ok a, s').

(** ** A small engine and backend for concrete runs *)

Module Toy.

(** A stored geometry: its type tag and the references the engine hands out
    for its members. *)
Definition node : Type := (Z * list raw)%type.

Definition tag_of (h : gmap positive node) (g : raw) : Z :=
  match g with
  | Some p => match h !! p with Some n => fst n | None => -1 end
  | None => -1
  end.

Definition count_of (h : gmap positive node) (g : raw) : Z :=
  match g with
  | Some p => match h !! p with
              | Some n => Z.of_nat (List.length (snd n))
              | None => -1
              end
  | None => -1
  end.

Definition member_of (h : gmap positive node) (g : raw) (n : Z) : raw :=
  match g with
  | Some p => match h !! p with
              | Some nd => if n <? 0 then None
                           else mjoin (snd nd !! Z.to_nat n)
              | None => None
              end
  | None => None
  end.

Definition engine : GEOS :=
  {| heap := gmap positive node;
     GEOSGeomTypeId := tag_of;
     GEOSGetNumGeometries := count_of;
     GEOSGetGeometryN := member_of;
     GEOSGeom_destroy := fun h p => delete p h |}.

(** A MultiPoint at 10 with three points, a GeometryCollection at 20 whose
    second member reference is null, and a geometry at 30 for which the type
    query answers -1. *)
Definition store : gmap positive node :=
  list_to_map [
    (10%positive, (4, [Some 11%positive; Some 12%positive; Some 13%positive]));
    (11%positive, (0, []));
    (12%positive, (0, []));
    (13%positive, (0, []));
    (20%positive, (7, [Some 11%positive; None]));
    (30%positive, (-1, []))
  ].

Definition s0 : @world engine := {| w_heap := store : @heap engine; w_destroyed := [] |}.

(** A backend whose entries compute without looking at the handle. *)
Definition table : gmap string (@op engine) :=
  list_to_map [
    ("area", UnaryScalar (fun _ => mret (SFloat 0)));
    ("length", UnaryScalar (fun _ => mret (SFloat 0)));
    ("is_empty", UnaryScalar (fun _ => mret (SInt 1)));
    ("contains", BinaryScalar (fun _ _ => mret (SInt 0)));
    ("equals_exact", ToleranceScalar (fun _ _ _ => mret (SInt 1)));
    ("union", BinaryTopo (fun _ _ => mret (Some 10%positive)));
    ("buffer", BufferTopo (fun _ _ _ => mret (Some 11%positive)))
  ].

Definition backend : @Implementation engine := {| imp := table |}.

(** A [pow] that is right at the one point used below. *)
Definition libm : Libm :=
  {| pow := fun x y => if ((x =? 10) && (y =? -6))%float
                       then (1 / 1000000)%float else nan |}.

(** [Point()] without arguments: a blank instance. *)
Definition Point : @M engine wrapper :=
  mret (BaseGeometry.__init__ (new C_Point)).

(** A wrapper without a handle, the multi-part wrappers over 10 and 20, and
    their part sequences. *)
Definition null_point : wrapper := BaseGeometry.__init__ (new C_Point).

Definition multipoint : wrapper :=
  {| Instance.__class__ := C_MultiPoint; __geom__ := Some 10%positive;
     Instance.__p__ := None; Instance._ndim := Some 2; _owned := false |}.

Definition collection : wrapper :=
  {| Instance.__class__ := C_GeometryCollection; __geom__ := Some 20%positive;
     Instance.__p__ := None; Instance._ndim := Some 2; _owned := false |}.

Definition points : @GeometrySequence.t engine :=
  GeometrySequence.__init__ multipoint (Some Point).

Definition members : @GeometrySequence.t engine :=
  HeterogeneousGeometrySequence.__init__ collection.

Definition points_of_collection : @GeometrySequence.t engine :=
  GeometrySequence.__init__ collection (Some Point).

Definition multipoint_members : @GeometrySequence.t engine :=
  HeterogeneousGeometrySequence.__init__ multipoint.


(** An owning wrapper over the point at 11. *)
Definition point : wrapper :=
  {| Instance.__class__ := C_Point; __geom__ := Some 11%positive;
     Instance.__p__ := None; Instance._ndim := Some 3; _owned := false |}.

(** A backend whose [boundary] entry returns a null reference. *)
Definition null_backend : @Implementation engine :=
  {| imp := {[ "boundary" := UnaryTopo (fun _ => mret None) ]} |}.

(** The sequence of members of the point at 11, which has none. *)
Definition members_of_point : @GeometrySequence.t engine :=
  HeterogeneousGeometrySequence.__init__ point.

(** A backend with the same [union] entry as [backend] and no other. *)
Definition union_backend : @Implementation engine :=
  {| imp := {[ "union" := BinaryTopo (fun _ _ => mret (Some 10%positive)) ]} |}.

(** A backend whose [equals_exact] entry answers by the tolerance alone: true
    when the tolerance is below a millionth. *)
Definition tolerant_backend : @Implementation engine :=
  {| imp := {[ "equals_exact" :=
       ToleranceScalar (fun _ _ tolerance =>
         mret (SBool (tolerance <? 1 / 1000000)%float)) ]} |}.

End Toy.

(** * Properties *)

(** ** Running computations *)

Ltac run :=
  unfold mbind, mret, M_mbind, M_mret, M_bind, M_ret, raise, lift, query,
    destroy in *;
  cbn in *.

Section Destruction.

Context `{GEOS}.

Lemma del_clears (self : wrapper) (s : world) :
  exists self' s1,
    BaseGeometry.__del__ self s = (Ok self', s1)
    /\ __geom__ self' = None /\ Instance.__p__ self' = None.
Proof.
  unfold BaseGeometry.__del__.
  destruct (__geom__ self) as [p|]; [destruct (_owned self)|]; run;
    eauto 10.
Qed.

Lemma del_owning (self : wrapper) (p : ptr) (s : world) :
  __geom__ self = Some p -> _owned self = false ->
  BaseGeometry.__del__ self s
  = (Ok (set___p__ None (set___geom__ None self)),
     {| w_heap := GEOSGeom_destroy (w_heap s) p;
        w_destroyed := w_destroyed s ++ [p] |}).
Proof.
  intros Hg Ho. unfold BaseGeometry.__del__. rewrite Hg, Ho. reflexivity.
Qed.

Lemma del_aliasing (self : wrapper) (s : world) :
  _owned self = true ->
  BaseGeometry.__del__ self s
  = (Ok (set___p__ None (set___geom__ None self)), s).
Proof.
  intros Ho. unfold BaseGeometry.__del__. rewrite Ho.
  destruct (__geom__ self); reflexivity.
Qed.

Lemma del_null (self : wrapper) (s : world) :
  __geom__ self = None ->
  BaseGeometry.__del__ self s
  = (Ok (set___p__ None (set___geom__ None self)), s).
Proof.
  intros Hg. unfold BaseGeometry.__del__. rewrite Hg. reflexivity.
Qed.

End Destruction.

(** ** Python list indexing *)

Section ListIndex.

Context {A : Type}.
Implicit Types (l : list A) (i : Z).

Lemma list_getitem_in_range l i :
  0 <= i < Z.of_nat (List.length l) ->
  exists x, l !! Z.to_nat i = Some x /\ list_getitem l i = Ok x.
Proof.
  intros Hi. unfold list_getitem.
  destruct (lookup_lt_is_Some_2 l (Z.to_nat i)) as [x Hx]; [lia|].
  exists x. split; [exact Hx|].
  destruct (Z.ltb_spec i 0); [lia|].
  destruct (Z.ltb_spec i 0); [lia|].
  destruct (Z.leb_spec (Z.of_nat (List.length l)) i); [lia|].
  cbn. now rewrite Hx.
Qed.

Lemma list_getitem_from_end l i :
  - Z.of_nat (List.length l) <= i < 0 ->
  exists x, l !! Z.to_nat (i + Z.of_nat (List.length l)) = Some x
            /\ list_getitem l i = Ok x.
Proof.
  intros Hi. unfold list_getitem.
  destruct (lookup_lt_is_Some_2 l (Z.to_nat (i + Z.of_nat (List.length l))))
    as [x Hx]; [lia|].
  exists x. split; [exact Hx|].
  destruct (Z.ltb_spec i 0); [|lia].
  destruct (Z.ltb_spec (i + Z.of_nat (List.length l)) 0); [lia|].
  destruct (Z.leb_spec (Z.of_nat (List.length l))
              (i + Z.of_nat (List.length l))); [lia|].
  cbn. now rewrite Hx.
Qed.

Lemma list_getitem_outside l i :
  i < - Z.of_nat (List.length l) \/ Z.of_nat (List.length l) <= i ->
  list_getitem l i = Raise (IndexError "list index out of range").
Proof.
  intros Hi. unfold list_getitem.
  destruct (Z.ltb_spec i 0).
  - destruct (Z.ltb_spec (i + Z.of_nat (List.length l)) 0); [reflexivity|lia].
  - destruct (Z.ltb_spec i 0); [lia|].
    destruct (Z.leb_spec (Z.of_nat (List.length l)) i); [reflexivity|lia].
Qed.

End ListIndex.

(** ** The type-name query and the factory *)

Section TypeNames.

Context `{GEOS}.

Lemma geometry_type_name_some (p : ptr) (s : world) :
  geometry_type_name (Some p) s
  = (list_getitem GEOMETRY_TYPES (GEOSGeomTypeId (w_heap s) (Some p)), s).
Proof. reflexivity. Qed.

(** Every name of the table is bound in the registry. *)
Lemma registry_complete (name : string) :
  name ∈ GEOMETRY_TYPES ->
  exists c, getattr_shapely_geometry name = Ok c.
Proof.
  intros Hin. unfold GEOMETRY_TYPES in Hin.
  repeat (apply elem_of_cons in Hin as [->|Hin];
          [eexists; vm_compute; reflexivity|]).
  now apply elem_of_nil in Hin.
Qed.

End TypeNames.

(** ** Claims on destruction, the type table and the factory *)

(** C5: destroying a wrapper releases its storage exactly once, and only when
    the wrapper has a reference and does not alias another object's storage.
    The destructor always returns and clears the reference, so running it
    again changes nothing; for an owning wrapper with reference [p] the trace
    of releases grows by the single entry [p]; for an aliasing wrapper or one
    without a reference the engine is not called at all. *)
Theorem del_releases_once_iff_owning `{GEOS} (self : wrapper) (s : world) :
  exists self' s1,
    BaseGeometry.__del__ self s = (Ok self', s1)
    /\ __geom__ self' = None
    /\ BaseGeometry.__del__ self' s1 = (Ok self', s1)
    /\ (forall p, __geom__ self = Some p -> _owned self = false ->
        w_destroyed s1 = w_destroyed s ++ [p]
        /\ w_heap s1 = GEOSGeom_destroy (w_heap s) p)
    /\ (_owned self = true \/ __geom__ self = None -> s1 = s).
Proof.
  destruct self as [c g par nd own].
  destruct g as [p|]; [destruct own|].
  - exists (Wrapper c None None nd true), s.
    split; [reflexivity|]. split; [reflexivity|]. split; [reflexivity|].
    split; [intros q _ Ho; discriminate Ho | intros _; reflexivity].
  - exists (Wrapper c None None nd false),
      {| w_heap := GEOSGeom_destroy (w_heap s) p;
         w_destroyed := w_destroyed s ++ [p] |}.
    split; [reflexivity|]. split; [reflexivity|]. split; [reflexivity|].
    split.
    + intros q Hq _. cbn in Hq. inversion Hq; subst q. split; reflexivity.
    + intros [Ho|Hg]; [discriminate Ho | discriminate Hg].
  - exists (Wrapper c None None nd own), s.
    split; [reflexivity|]. split; [reflexivity|]. split; [reflexivity|].
    split; [intros q Hq; discriminate Hq | intros _; reflexivity].
Qed.

Lemma del_releases_once_iff_owning_witness :
  exists self' s1,
    BaseGeometry.__del__ (set__owned false Toy.multipoint) Toy.s0
    = (Ok self', s1)
    /\ __geom__ self' = None
    /\ BaseGeometry.__del__ self' s1 = (Ok self', s1)
    /\ w_destroyed s1 = [10%positive].
Proof.
  destruct (@del_releases_once_iff_owning Toy.engine
              (set__owned false Toy.multipoint) Toy.s0)
    as (self' & s1 & Hrun & Hnull & Hagain & Hown & _).
  exists self', s1. repeat split; try assumption.
  apply (Hown 10%positive); reflexivity.
Defined.

(** C7: a null reference is rejected.  The type-name query raises the error
    of a null geometry, and the factory raises its own error before it builds
    anything: for no state does it return a wrapper. *)
Theorem null_reference_rejected `{GEOS} (parent : option wrapper) (s : world) :
  geometry_type_name None s
  = (Raise (ValueError "Null geometry has no type"), s)
  /\ geom_factory None parent s
     = (Raise (ValueError "No Shapely geometry can be created from null value"),
        s)
  /\ fails_with InvalidGeometryError (geometry_type_name None) s
  /\ fails_with InvalidGeometryError (geom_factory None parent) s
  /\ forall ob s', geom_factory None parent s <> (Ok ob, s').
Proof.
  repeat split.
  - eexists _, _. split; reflexivity.
  - eexists _, _. split; reflexivity.
  - intros ob s' Hx. discriminate Hx.
Qed.

(** C6, amended: the type-name query indexes the table with the tag as a
    Python list index.  A tag in 0..7 gives the name at that position; a tag of
    8 or more, or below -8, raises the unchecked [IndexError] of the list; a
    tag in -8..-1 is not rejected but counts from the end of the table and
    gives the name at position tag + 8. *)
Theorem type_name_by_tag `{GEOS} (p : ptr) (s : world) :
  (0 <= GEOSGeomTypeId (w_heap s) (Some p) < 8 ->
   exists name,
     GEOMETRY_TYPES !! Z.to_nat (GEOSGeomTypeId (w_heap s) (Some p)) = Some name
     /\ geometry_type_name (Some p) s = (Ok name, s))
  /\ (GEOSGeomTypeId (w_heap s) (Some p) < -8
      \/ 8 <= GEOSGeomTypeId (w_heap s) (Some p) ->
      geometry_type_name (Some p) s
      = (Raise (IndexError "list index out of range"), s)
      /\ fails_with UncheckedFailure (geometry_type_name (Some p)) s)
  /\ (-8 <= GEOSGeomTypeId (w_heap s) (Some p) < 0 ->
      exists name,
        GEOMETRY_TYPES !! Z.to_nat (GEOSGeomTypeId (w_heap s) (Some p) + 8)
        = Some name
        /\ geometry_type_name (Some p) s = (Ok name, s)).
Proof.
  rewrite geometry_type_name_some.
  set (tag := GEOSGeomTypeId (w_heap s) (Some p)).
  split; [|split].
  - intros Ht.
    destruct (list_getitem_in_range GEOMETRY_TYPES tag) as (x & Hx & Hg);
      [exact Ht|].
    exists x. now rewrite Hg.
  - intros Ht.
    assert (Hg : list_getitem GEOMETRY_TYPES tag
                 = Raise (IndexError "list index out of range")).
    { apply list_getitem_outside. cbn. lia. }
    split.
    + now rewrite Hg.
    + eexists _, _. rewrite geometry_type_name_some. fold tag. rewrite Hg.
      split; reflexivity.
  - intros Ht.
    destruct (list_getitem_from_end GEOMETRY_TYPES tag) as (x & Hx & Hg);
      [exact Ht|].
    exists x. now rewrite Hg.
Qed.

Lemma type_name_by_tag_witness :
  geometry_type_name (H := Toy.engine) (Some 10%positive) Toy.s0
  = (Ok "MultiPoint", Toy.s0).
Proof.
  destruct (@type_name_by_tag Toy.engine 10%positive Toy.s0)
    as (Hin & _ & _).
  destruct Hin as (name & Hname & Hrun);
    [vm_compute; split; [discriminate|reflexivity]|].
  vm_compute in Hname. inversion Hname; subst name. exact Hrun.
Defined.

(** C6 as stated fails: for the geometry at 30 the engine answers the tag -1,
    which is outside 0..7, and the query returns a name instead of failing. *)
Lemma type_name_of_tag_minus_one :
  GEOSGeomTypeId (GEOS := Toy.engine) (w_heap Toy.s0) (Some 30%positive) = -1
  /\ geometry_type_name (H := Toy.engine) (Some 30%positive) Toy.s0
     = (Ok "GeometryCollection", Toy.s0)
  /\ ~ fails_with UncheckedFailure
         (geometry_type_name (H := Toy.engine) (Some 30%positive)) Toy.s0.
Proof.
  split; [reflexivity|]. split; [reflexivity|].
  intros (e & s' & Hrun & _). vm_compute in Hrun. discriminate Hrun.
Qed.

Section Factory.

Context `{GEOS}.

Lemma geom_factory_some (p : ptr) (parent : option wrapper) (s : world)
    (name : string) (c : pyclass) :
  list_getitem GEOMETRY_TYPES (GEOSGeomTypeId (w_heap s) (Some p)) = Ok name ->
  getattr_shapely_geometry name = Ok c ->
  geom_factory (Some p) parent s
  = (Ok (Wrapper c (Some p) parent (Some 2) false), s).
Proof.
  intros Hname Hc. unfold geom_factory. cbn [truthy negb].
  unfold mbind, M_mbind, M_bind. rewrite geometry_type_name_some, Hname.
  unfold lift. rewrite Hc. reflexivity.
Qed.

Lemma geom_factory_none (parent : option wrapper) (s : world) :
  geom_factory None parent s
  = (Raise (ValueError "No Shapely geometry can be created from null value"),
     s).
Proof. reflexivity. Qed.

(** Whatever the factory returns holds the reference it was given and owns
    it. *)
Lemma geom_factory_result (g : raw) (parent : option wrapper) (s s1 : world)
    (ob : wrapper) :
  geom_factory g parent s = (Ok ob, s1) ->
  s1 = s /\ __geom__ ob = g /\ _owned ob = false
  /\ Instance._ndim ob = Some 2 /\ Instance.__p__ ob = parent.
Proof.
  destruct g as [p|]; [|intros Hx; discriminate Hx].
  unfold geom_factory. cbn [truthy negb].
  unfold mbind, M_mbind, M_bind. rewrite geometry_type_name_some.
  destruct (list_getitem GEOMETRY_TYPES _) as [name|e];
    [|intros Hx; discriminate Hx].
  unfold lift. destruct (getattr_shapely_geometry name) as [c|e];
    [|intros Hx; discriminate Hx].
  intros Hx. inversion Hx; subst. repeat split; reflexivity.
Qed.

Lemma geometryType_some (self : wrapper) (p : ptr) (s : world) :
  __geom__ self = Some p ->
  BaseGeometry.geometryType self s = geometry_type_name (Some p) s.
Proof.
  intros Hg. unfold BaseGeometry.geometryType, exceptNull,
    BaseGeometryCore._get_geom, BaseGeometry._get_geom.
  now rewrite Hg.
Qed.

End Factory.

(** C4: for a non-null reference [p] whose tag the table covers, the factory
    returns, without touching the engine state, a wrapper whose [geometryType]
    is the name the table gives to the tag and whose class is the one the
    registry binds to that name.  The wrapper holds [p] and owns it, so
    destroying it releases [p]; its dimension is 2; its parent is the [parent]
    argument, which is [None] when none is given. *)
Theorem geom_factory_wraps `{GEOS} (p : ptr) (parent : option wrapper)
    (s : world) :
  0 <= GEOSGeomTypeId (w_heap s) (Some p) < 8 ->
  exists ob name,
    GEOMETRY_TYPES !! Z.to_nat (GEOSGeomTypeId (w_heap s) (Some p)) = Some name
    /\ geom_factory (Some p) parent s = (Ok ob, s)
    /\ BaseGeometry.geometryType ob s = (Ok name, s)
    /\ shapely_geometry !! name = Some (Instance.__class__ ob)
    /\ __geom__ ob = Some p
    /\ _owned ob = false
    /\ Instance._ndim ob = Some 2
    /\ Instance.__p__ ob = parent
    /\ exists ob',
         BaseGeometry.__del__ ob s
         = (Ok ob', {| w_heap := GEOSGeom_destroy (w_heap s) p;
                       w_destroyed := w_destroyed s ++ [p] |}).
Proof.
  intros Htag.
  destruct (list_getitem_in_range GEOMETRY_TYPES _ Htag) as (name & Hl & Hget).
  destruct (registry_complete name) as [c Hc].
  { apply list_elem_of_lookup. eauto. }
  exists (Wrapper c (Some p) parent (Some 2) false), name.
  split; [exact Hl|].
  split; [now apply (geom_factory_some p parent s name c)|].
  split.
  { rewrite (geometryType_some _ p) by reflexivity.
    now rewrite geometry_type_name_some, Hget. }
  split.
  { unfold getattr_shapely_geometry in Hc.
    destruct (shapely_geometry !! name) as [c'|]; [|discriminate Hc].
    now inversion Hc. }
  repeat (split; [reflexivity|]).
  eexists. now apply del_owning.
Qed.

Lemma geom_factory_wraps_witness :
  exists ob,
    geom_factory (H := Toy.engine) (Some 10%positive) None Toy.s0
    = (Ok ob, Toy.s0)
    /\ BaseGeometry.geometryType ob Toy.s0 = (Ok "MultiPoint", Toy.s0)
    /\ _owned ob = false.
Proof.
  destruct (@geom_factory_wraps Toy.engine 10%positive None Toy.s0)
    as (ob & name & Hname & Hrun & Htype & _ & _ & Hown & _).
  { vm_compute. split; [discriminate|reflexivity]. }
  vm_compute in Hname. inversion Hname; subst name.
  exists ob. repeat split; assumption.
Defined.

(** ** Part sequences *)

Section Sequences.

Context `{GEOS}.
Implicit Types (self : GeometrySequence.t) (i : Z) (s : world) (g : wrapper).

Lemma len_run self s :
  PartSequence.__len__ self s
  = (Ok (child_count self s, GeometrySequence._update self), s).
Proof. reflexivity. Qed.

Lemma getitem_run self i s :
  PartSequence.__getitem__ self i s
  = if (i + child_count self s <? 0) || (child_count self s <=? i)
    then (Raise (IndexError "index out of range"), s)
    else match PartSequence._get_geom_item
                 (GeometrySequence._update self) i s with
         | (Ok g, s1) => (Ok (g, GeometrySequence._update self), s1)
         | (Raise e, s1) => (Raise e, s1)
         end.
Proof.
  unfold PartSequence.__getitem__. unfold mbind, M_mbind, M_bind.
  rewrite len_run. fold (child_count self s).
  change (child_count (GeometrySequence._update self) s)
    with (child_count self s).
  destruct ((i + child_count self s <? 0) || (child_count self s <=? i));
    reflexivity.
Qed.

Lemma getitem_outside self i s :
  i < - child_count self s \/ child_count self s <= i ->
  PartSequence.__getitem__ self i s
  = (Raise (IndexError "index out of range"), s).
Proof.
  intros Hi. rewrite getitem_run.
  destruct (Z.ltb_spec (i + child_count self s) 0);
    destruct (Z.leb_spec (child_count self s) i); try reflexivity; lia.
Qed.

(** Inside the bounds the engine is asked for member [i] itself, also when
    [i] is negative: the resolved index [ii] is computed and not used. *)
Lemma getitem_inside self i s :
  - child_count self s <= i < child_count self s ->
  PartSequence.__getitem__ self i s
  = match PartSequence._get_geom_item
            (GeometrySequence._update self) i s with
    | (Ok g, s1) => (Ok (g, GeometrySequence._update self), s1)
    | (Raise e, s1) => (Raise e, s1)
    end.
Proof.
  intros Hi. rewrite getitem_run.
  destruct (Z.ltb_spec (i + child_count self s) 0); [lia|].
  destruct (Z.leb_spec (child_count self s) i); [lia|]. reflexivity.
Qed.

Lemma homogeneous_item self i s (make : M wrapper) g0 s1 :
  GeometrySequence._factory self = Some make ->
  make s = (Ok g0, s1) ->
  GeometrySequence._get_geom_item self i s
  = (Ok (set___geom__
           (GEOSGetGeometryN (w_heap s1) (GeometrySequence._geom self) i)
           (set__owned true g0)), s1).
Proof.
  intros Hf Hmake. unfold GeometrySequence._get_geom_item. rewrite Hf.
  unfold mbind, M_mbind, M_bind. rewrite Hmake. reflexivity.
Qed.

Lemma heterogeneous_item_null self i s :
  GEOSGetGeometryN (w_heap s) (GeometrySequence._geom self) i = None ->
  HeterogeneousGeometrySequence._get_geom_item self i s
  = (Raise (ValueError "No Shapely geometry can be created from null value"),
     s).
Proof.
  intros Hsub. unfold HeterogeneousGeometrySequence._get_geom_item.
  unfold mbind, M_mbind, M_bind, query. rewrite Hsub. reflexivity.
Qed.

Lemma homogeneous_item_owned self i s s1 g :
  GeometrySequence._get_geom_item self i s = (Ok g, s1) -> _owned g = true.
Proof.
  unfold GeometrySequence._get_geom_item.
  destruct (GeometrySequence._factory self) as [make|];
    [|intros Hx; discriminate Hx].
  unfold mbind, M_mbind, M_bind.
  destruct (make s) as [[g0|e] s']; [|intros Hx; discriminate Hx].
  cbn. intros Hx. inversion Hx; subst. reflexivity.
Qed.

Lemma heterogeneous_item_owned self i s s1 g :
  HeterogeneousGeometrySequence._get_geom_item self i s = (Ok g, s1) ->
  _owned g = true.
Proof.
  unfold HeterogeneousGeometrySequence._get_geom_item.
  unfold mbind, M_mbind, M_bind, query.
  destruct (geom_factory _ None s) as [[g0|e] s'];
    [|intros Hx; discriminate Hx].
  cbn. intros Hx. inversion Hx; subst. reflexivity.
Qed.

Lemma item_owned self i s s1 g :
  PartSequence._get_geom_item self i s = (Ok g, s1) -> _owned g = true.
Proof.
  unfold PartSequence._get_geom_item.
  destruct (GeometrySequence.__class__ self).
  - apply homogeneous_item_owned.
  - apply heterogeneous_item_owned.
Qed.

Lemma getitem_owned self i s s1 g self' :
  PartSequence.__getitem__ self i s = (Ok (g, self'), s1) -> _owned g = true.
Proof.
  rewrite getitem_run.
  destruct ((i + child_count self s <? 0) || (child_count self s <=? i));
    [intros Hx; discriminate Hx|].
  destruct (PartSequence._get_geom_item _ i s) as [[g0|e] s'] eqn:Hitem;
    [|intros Hx; discriminate Hx].
  intros Hx. inversion Hx; subst. eapply item_owned, Hitem.
Qed.

Lemma items_from_owned self (count : nat) i s s1 (gs : list wrapper) :
  PartSequence.items_from self i count s = (Ok gs, s1) ->
  Forall (fun g => _owned g = true) gs.
Proof.
  revert i s s1 gs. induction count as [|count IH]; intros i s s1 gs.
  - cbn. intros Hx. inversion Hx; subst. constructor.
  - cbn [PartSequence.items_from]. unfold mbind, M_mbind, M_bind.
    destruct (PartSequence._get_geom_item self i s) as [[g|e] s'] eqn:Hitem;
      [|intros Hx; discriminate Hx].
    destruct (PartSequence.items_from self (i + 1) count s')
      as [[gs'|e] s''] eqn:Hrest; [|intros Hx; discriminate Hx].
    cbn. intros Hx. inversion Hx; subst. constructor.
    + eapply item_owned, Hitem.
    + eapply IH, Hrest.
Qed.

End Sequences.

(** C1: a child wrapper produced by a part sequence of either class aliases
    the parent's storage.  Whenever item retrieval returns a wrapper [g], [g]
    is marked as owned by another object, its destructor returns without
    calling the engine's release (the state, and with it the trace of
    releases, is unchanged), and so any computation run after the destruction
    of [g], such as access to a sibling or to the parent, behaves as it would
    have without it. *)
Theorem part_sequence_child_never_releases `{GEOS}
    (self : GeometrySequence.t) (i : Z) (s s1 : world) (g : wrapper) :
  PartSequence._get_geom_item self i s = (Ok g, s1) ->
  _owned g = true
  /\ (exists g', BaseGeometry.__del__ g s1 = (Ok g', s1))
  /\ forall (A : Type) (later : M A),
       (BaseGeometry.__del__ g ≫= (fun _ => later)) s1 = later s1.
Proof.
  intros Hitem. pose proof (item_owned _ _ _ _ _ Hitem) as Ho.
  split; [exact Ho|]. split.
  - eexists. now apply del_aliasing.
  - intros A later. unfold mbind, M_mbind, M_bind.
    now rewrite del_aliasing.
Qed.

Lemma part_sequence_child_never_releases_witness :
  exists g,
    PartSequence._get_geom_item
      (GeometrySequence._update Toy.multipoint_members) 1 Toy.s0
    = (Ok g, Toy.s0)
    /\ __geom__ g = Some 12%positive
    /\ _owned g = true
    /\ exists g', BaseGeometry.__del__ g Toy.s0 = (Ok g', Toy.s0).
Proof.
  eexists. split; [vm_compute; reflexivity|]. split; [reflexivity|].
  destruct (@part_sequence_child_never_releases Toy.engine
              (GeometrySequence._update Toy.multipoint_members) 1
              Toy.s0 Toy.s0
              (Wrapper C_Point (Some 12%positive) None (Some 2) true))
    as (Ho & Hdel & _); [vm_compute; reflexivity|].
  split; assumption.
Defined.

(** The same holds for indexed access and for every element of an
    iteration. *)
Lemma getitem_child_never_releases `{GEOS} (self self' : GeometrySequence.t)
    (i : Z) (s s1 : world) (g : wrapper) :
  PartSequence.__getitem__ self i s = (Ok (g, self'), s1) ->
  _owned g = true
  /\ BaseGeometry.__del__ g s1
     = (Ok (set___p__ None (set___geom__ None g)), s1).
Proof.
  intros Hitem. pose proof (getitem_owned _ _ _ _ _ _ Hitem) as Ho.
  split; [exact Ho | now apply del_aliasing].
Qed.

Lemma iter_children_never_release `{GEOS} (self self' : GeometrySequence.t)
    (s s1 : world) (gs : list wrapper) :
  PartSequence.__iter__ self s = (Ok (gs, self'), s1) ->
  Forall (fun g => _owned g = true) gs.
Proof.
  unfold PartSequence.__iter__. unfold mbind, M_mbind, M_bind.
  rewrite len_run.
  destruct (PartSequence.items_from _ 0 _ s) as [[gs'|e] s'] eqn:Hitems;
    [|intros Hx; discriminate Hx].
  cbn. intros Hx. inversion Hx; subst. eapply items_from_owned, Hitems.
Qed.

(** C3, the code at the failing input.  The multi-part geometry at 10 has
    three members.  Index 2 gives the member at 13, and the indices 3 and -4
    raise the index error; but index -1 passes the bounds check and the engine
    is then asked for member -1, not for member 2: the sequence of points
    returns a wrapper without a reference, and the heterogeneous sequence over
    the same parent raises the factory's error. *)
Theorem getitem_minus_one_is_not_last :
  PartSequence.__len__ Toy.points Toy.s0
  = (Ok (3, GeometrySequence._update Toy.points), Toy.s0)
  /\ PartSequence.__getitem__ Toy.points 2 Toy.s0
     = (Ok (Wrapper C_Point (Some 13%positive) None None true,
            GeometrySequence._update Toy.points), Toy.s0)
  /\ PartSequence.__getitem__ Toy.points (-1) Toy.s0
     = (Ok (Wrapper C_Point None None None true,
            GeometrySequence._update Toy.points), Toy.s0)
  /\ PartSequence.__getitem__ Toy.multipoint_members (-1) Toy.s0
     = (Raise
          (ValueError "No Shapely geometry can be created from null value"),
        Toy.s0)
  /\ PartSequence.__getitem__ Toy.points 3 Toy.s0
     = (Raise (IndexError "index out of range"), Toy.s0)
  /\ PartSequence.__getitem__ Toy.points (-4) Toy.s0
     = (Raise (IndexError "index out of range"), Toy.s0).
Proof. repeat split; vm_compute; reflexivity. Qed.

(** For every engine: an index inside the bounds reaches the engine as it
    is, an index outside raises the index error. *)
Lemma getitem_index_resolution `{GEOS} (self : GeometrySequence.t) (i : Z)
    (s : world) :
  (i < - child_count self s \/ child_count self s <= i ->
   PartSequence.__getitem__ self i s
   = (Raise (IndexError "index out of range"), s))
  /\ (- child_count self s <= i < child_count self s ->
      PartSequence.__getitem__ self i s
      = (PartSequence._get_geom_item (GeometrySequence._update self) i
           ≫= (fun g => mret (g, GeometrySequence._update self))) s).
Proof.
  split.
  - apply getitem_outside.
  - intros Hi. rewrite getitem_inside by exact Hi. reflexivity.
Qed.

(** C10: when the engine returns a null member reference at a valid index,
    the two classes of sequence over the same parent diverge.  The
    heterogeneous sequence raises the factory's error; the homogeneous
    sequence, whose element constructor [make] returns a blank instance,
    returns a wrapper whose reference is null. *)
Theorem null_child_divergence `{GEOS} (parent : wrapper) (make : M wrapper)
    (g0 : wrapper) (i : Z) (s : world) :
  0 <= i < GEOSGetNumGeometries (w_heap s) (__geom__ parent) ->
  GEOSGetGeometryN (w_heap s) (__geom__ parent) i = None ->
  make s = (Ok g0, s) ->
  (exists e,
     PartSequence.__getitem__ (HeterogeneousGeometrySequence.__init__ parent)
       i s = (Raise e, s)
     /\ InvalidGeometryError e = true)
  /\ exists g self',
       PartSequence.__getitem__ (GeometrySequence.__init__ parent (Some make))
         i s = (Ok (g, self'), s)
       /\ __geom__ g = None.
Proof.
  intros Hi Hsub Hmake. split.
  - eexists. rewrite getitem_inside by (unfold child_count; cbn; lia).
    unfold PartSequence._get_geom_item. cbn [GeometrySequence.__class__
      GeometrySequence._update HeterogeneousGeometrySequence.__init__].
    rewrite heterogeneous_item_null by exact Hsub. split; reflexivity.
  - eexists _, _. rewrite getitem_inside by (unfold child_count; cbn; lia).
    unfold PartSequence._get_geom_item. cbn [GeometrySequence.__class__
      GeometrySequence._update GeometrySequence.__init__].
    erewrite homogeneous_item by (reflexivity || exact Hmake).
    cbn. split; [reflexivity|]. exact Hsub.
Qed.

Lemma null_child_divergence_witness :
  PartSequence.__getitem__ Toy.members 1 Toy.s0
  = (Raise (ValueError "No Shapely geometry can be created from null value"),
     Toy.s0)
  /\ exists g self',
       PartSequence.__getitem__ Toy.points_of_collection 1 Toy.s0
       = (Ok (g, self'), Toy.s0)
       /\ __geom__ g = None.
Proof.
  destruct (@null_child_divergence Toy.engine Toy.collection Toy.Point
              Toy.null_point 1 Toy.s0) as [_ Hhom].
  - vm_compute. split; [discriminate|reflexivity].
  - reflexivity.
  - reflexivity.
  - split; [vm_compute; reflexivity | exact Hhom].
Defined.

(** ** The guard and the operation table *)

Section NullGuard.

Context `{Implementation}.
Implicit Types (self other : wrapper) (s : world).

Lemma exceptNull_null {A} (func : wrapper -> M A) self s :
  truthy (__geom__ self) = false ->
  exceptNull func self s
  = (Raise (ValueError "Null geometry supports no operations"), s).
Proof.
  intros Hnull. unfold exceptNull, BaseGeometryCore._get_geom.
  now rewrite Hnull.
Qed.

Lemma exceptNull_some {A} (func : wrapper -> M A) self s :
  truthy (__geom__ self) = true -> exceptNull func self s = func self s.
Proof.
  intros Hsome. unfold exceptNull, BaseGeometryCore._get_geom.
  now rewrite Hsome.
Qed.

Lemma imp_unary_entry key f self :
  imp !! key = Some (UnaryScalar f) -> imp_unary key self = f self.
Proof. intros Hk. unfold imp_unary. now rewrite Hk. Qed.

Lemma imp_binary_entry key f self other :
  imp !! key = Some (BinaryScalar f) -> imp_binary key self other = f self other.
Proof. intros Hk. unfold imp_binary. now rewrite Hk. Qed.

Lemma imp_tolerance_entry key f self other tolerance :
  imp !! key = Some (ToleranceScalar f) ->
  imp_tolerance key self other tolerance = f self other tolerance.
Proof. intros Hk. unfold imp_tolerance. now rewrite Hk. Qed.

Lemma imp_binary_topo_entry key f self other :
  imp !! key = Some (BinaryTopo f) ->
  imp_binary_topo key self other = f self other.
Proof. intros Hk. unfold imp_binary_topo. now rewrite Hk. Qed.

Lemma imp_buffer_topo_entry key f self d q :
  imp !! key = Some (BufferTopo f) -> imp_buffer_topo key self d q = f self d q.
Proof. intros Hk. unfold imp_buffer_topo. now rewrite Hk. Qed.

End NullGuard.

(** C2, amended: on a wrapper without a handle the guarded operations,
    [geometryType] and reading [coords], fail with the guard's error before
    their body runs; so [geometryType] fails with the error of a null
    geometry, not with the error of an invalid one.  The real-valued,
    topological and predicate operations carry no guard in this layer: each
    hands the receiver to its entry of the operation table, and what happens
    on a wrapper without a handle is what the entry does. *)
Theorem null_handle_operations `{Implementation} (self : wrapper) (s : world) :
  truthy (__geom__ self) = false ->
  BaseGeometry.geometryType self s
  = (Raise (ValueError "Null geometry supports no operations"), s)
  /\ getattr BaseGeometry.coords self s
     = (Raise (ValueError "Null geometry supports no operations"), s)
  /\ fails_with NullGeometryError (BaseGeometry.geometryType self) s
  /\ fails_with NullGeometryError (getattr BaseGeometry.coords self) s
  /\ ~ fails_with InvalidGeometryError (BaseGeometry.geometryType self) s
  /\ (forall f, imp !! "area" = Some (UnaryScalar f) ->
      BaseGeometry.area self s = f self s)
  /\ (forall f, imp !! "length" = Some (UnaryScalar f) ->
      BaseGeometry.length self s = f self s)
  /\ (forall f d q, imp !! "buffer" = Some (BufferTopo f) ->
      BaseGeometry.buffer self d q s
      = (f self d q ≫= (fun g => geom_factory g None)) s)
  /\ (forall f other, imp !! "union" = Some (BinaryTopo f) ->
      BaseGeometry.union self other s
      = (f self other ≫= (fun g => geom_factory g None)) s)
  /\ (forall key f, imp !! key = Some (UnaryScalar f) ->
      BaseGeometry.unary_predicate key self s
      = (f self ≫= (fun v => mret (bool_of v))) s)
  /\ (forall key f other, imp !! key = Some (BinaryScalar f) ->
      BaseGeometry.binary_predicate key self other s
      = (f self other ≫= (fun v => mret (bool_of v))) s)
  /\ (forall f other tolerance,
      imp !! "equals_exact" = Some (ToleranceScalar f) ->
      BaseGeometry.equals_exact self other tolerance s
      = (f self other tolerance ≫= (fun v => mret (bool_of v))) s).
Proof.
  intros Hnull.
  assert (Htype : BaseGeometry.geometryType self s
    = (Raise (ValueError "Null geometry supports no operations"), s))
    by now apply exceptNull_null.
  assert (Hcoords : getattr BaseGeometry.coords self s
    = (Raise (ValueError "Null geometry supports no operations"), s))
    by now apply exceptNull_null.
  split; [exact Htype|]. split; [exact Hcoords|].
  split; [eexists _, _; split; [exact Htype|reflexivity]|].
  split; [eexists _, _; split; [exact Hcoords|reflexivity]|].
  split.
  { intros (e & s' & Hrun & Hkind). rewrite Htype in Hrun.
    inversion Hrun; subst. discriminate Hkind. }
  split.
  { intros f Hk. unfold BaseGeometry.area. now rewrite (imp_unary_entry _ f). }
  split.
  { intros f Hk. unfold BaseGeometry.length.
    now rewrite (imp_unary_entry _ f). }
  split.
  { intros f d q Hk. unfold BaseGeometry.buffer.
    now rewrite (imp_buffer_topo_entry _ f). }
  split.
  { intros f other Hk. unfold BaseGeometry.union.
    now rewrite (imp_binary_topo_entry _ f). }
  split.
  { intros key f Hk. unfold BaseGeometry.unary_predicate.
    now rewrite (imp_unary_entry _ f). }
  split.
  { intros key f other Hk. unfold BaseGeometry.binary_predicate.
    now rewrite (imp_binary_entry _ f). }
  intros f other tolerance Hk. unfold BaseGeometry.equals_exact.
  now rewrite (imp_tolerance_entry _ f).
Qed.

Lemma null_handle_operations_witness :
  truthy (__geom__ Toy.null_point) = false
  /\ fails_with NullGeometryError
       (BaseGeometry.geometryType (H := Toy.engine) Toy.null_point) Toy.s0
  /\ BaseGeometry.area (H0 := Toy.backend) Toy.null_point Toy.s0
     = (Ok (SFloat 0), Toy.s0).
Proof.
  destruct (@null_handle_operations Toy.engine Toy.backend Toy.null_point
              Toy.s0) as (_ & _ & Hguard & _ & _ & Harea & _);
    [reflexivity|].
  split; [reflexivity|]. split; [exact Hguard|].
  assert (Hk : @imp Toy.engine Toy.backend !! "area"
               = Some (UnaryScalar (fun _ => mret (SFloat 0))))
    by (vm_compute; reflexivity).
  exact (Harea _ Hk).
Defined.

(** C2 as stated fails on a wrapper without a handle: with a backend whose
    [area] entry does not look at the handle, [area] returns a value instead
    of failing, and [geometryType] fails with the error of a null geometry,
    which is not the error of an invalid one. *)
Lemma null_handle_claim_fails :
  truthy (__geom__ Toy.null_point) = false
  /\ BaseGeometry.area (H0 := Toy.backend) Toy.null_point Toy.s0
     = (Ok (SFloat 0), Toy.s0)
  /\ ~ fails_with NullGeometryError
         (BaseGeometry.area (H0 := Toy.backend) Toy.null_point) Toy.s0
  /\ BaseGeometry.geometryType (H := Toy.engine) Toy.null_point Toy.s0
     = (Raise (ValueError "Null geometry supports no operations"), Toy.s0)
  /\ ~ fails_with InvalidGeometryError
         (BaseGeometry.geometryType (H := Toy.engine) Toy.null_point) Toy.s0.
Proof.
  split; [reflexivity|]. split; [vm_compute; reflexivity|].
  split.
  { intros (e & s' & Hrun & _). vm_compute in Hrun. discriminate Hrun. }
  split; [reflexivity|].
  intros (e & s' & Hrun & Hkind). vm_compute in Hrun.
  inversion Hrun; subst. vm_compute in Hkind. discriminate Hkind.
Qed.

(** ** Multi-part geometries *)

(** C8, the code on a multi-part wrapper.  Whatever the state of the wrapper,
    reading [ctypes], reading the array interface, reading [coords] and the
    two accessors [_get_coords] and [_set_coords] raise
    [NotImplementedError].  Assigning to [coords] does not: the class declares
    [coords] with a getter only, so the assignment never reaches
    [_set_coords] and raises the [AttributeError] of a property without a
    setter. *)
Theorem multipart_coordinate_access `{GEOS} (self : wrapper) (ob : coordinates)
    (s : world) :
  fails_with UnsupportedOperationError
    (getattr BaseMultiPartGeometry.ctypes self) s
  /\ fails_with UnsupportedOperationError
       (getattr BaseMultiPartGeometry.__array_interface__ self) s
  /\ fails_with UnsupportedOperationError
       (getattr BaseMultiPartGeometry.coords self) s
  /\ fails_with UnsupportedOperationError
       (BaseMultiPartGeometry._get_coords self) s
  /\ fails_with UnsupportedOperationError
       (BaseMultiPartGeometry._set_coords self ob) s
  /\ setattr BaseMultiPartGeometry.coords self ob s
     = (Raise (AttributeError "can't set attribute"), s)
  /\ ~ fails_with UnsupportedOperationError
         (setattr BaseMultiPartGeometry.coords self ob) s.
Proof.
  repeat (split; [eexists _, _; split; reflexivity|]).
  split; [reflexivity|].
  intros (e & s' & Hrun & Hkind). cbn in Hrun. unfold raise in Hrun.
  inversion Hrun; subst. discriminate Hkind.
Qed.

(** On the base class the assignment does reach the setter. *)
Lemma base_coords_assignment `{GEOS} (self : wrapper) (ob : coordinates)
    (s : world) :
  setattr BaseGeometry.coords self ob s = BaseGeometry._set_coords self ob s
  /\ fails_with UnsupportedOperationError
       (setattr BaseGeometry.coords self ob) s.
Proof. split; [reflexivity|]. eexists _, _. split; reflexivity. Qed.

(** ** Comparison within a tolerance *)

#[local] Set Warnings "-inexact-float".

Lemma float_of_minus_six : float_of_int (-6) = Ok (-6)%float.
Proof. vm_compute. reflexivity. Qed.

Lemma half_of_a_millionth : (0.5 * 1e-6)%float = 0.5e-6%float.
Proof. vm_compute. reflexivity. Qed.

Lemma float_of_one : float_of_int 1 = Ok 1%float.
Proof. vm_compute. reflexivity. Qed.

(** C9: [almost_equals] is [equals_exact] at the tolerance
    [0.5 * 10**(-decimal)], for every integer [decimal].  For a positive
    [decimal] the power is the C library's [pow(10.0, float(-decimal))] and
    the tolerance is half of it; for a [decimal] of zero or less the power is
    the exact integer [10^(-decimal)] and the tolerance is half of its
    conversion to a float; when a conversion to a float overflows,
    [almost_equals] raises that error and compares nothing.  With
    [decimal = 0] the tolerance is [0.5].  With the default [decimal = 6],
    and the C library's [pow(10.0, -6.0)] being the double [1e-6], the
    tolerance is the double [0.5e-6]. *)
Theorem almost_equals_is_equals_exact `{Implementation} `{Libm}
    (self other : wrapper) (s : world) :
  pow 10%float (-6)%float = 1e-6%float ->
  (forall decimal y,
     0 < decimal -> float_of_int (- decimal) = Ok y ->
     BaseGeometry.almost_equals self other decimal s
     = BaseGeometry.equals_exact self other (0.5 * pow 10 y)%float s)
  /\ (forall decimal y,
        decimal <= 0 -> float_of_int (10 ^ (- decimal)) = Ok y ->
        BaseGeometry.almost_equals self other decimal s
        = BaseGeometry.equals_exact self other (0.5 * y)%float s)
  /\ (forall decimal e,
        (0 < decimal /\ float_of_int (- decimal) = Raise e)
        \/ (decimal <= 0 /\ float_of_int (10 ^ (- decimal)) = Raise e) ->
        BaseGeometry.almost_equals self other decimal s = (Raise e, s))
  /\ BaseGeometry.almost_equals self other 0 s
     = BaseGeometry.equals_exact self other 0.5%float s
  /\ BaseGeometry.almost_equals self other 6 s
     = BaseGeometry.equals_exact self other 0.5e-6%float s
  /\ BaseGeometry.almost_equals_default self other s
     = BaseGeometry.equals_exact self other 0.5e-6%float s.
Proof.
  intros Hpow.
  assert (Hpos : forall decimal y,
    0 < decimal -> float_of_int (- decimal) = Ok y ->
    BaseGeometry.almost_equals self other decimal s
    = BaseGeometry.equals_exact self other (0.5 * pow 10 y)%float s).
  { intros decimal y Hd Hy.
    unfold BaseGeometry.almost_equals, BaseGeometry.tolerance_of_decimal,
      ten_pow.
    destruct (Z.leb_spec 0 (- decimal)); [lia|].
    rewrite Hy. reflexivity. }
  assert (Hnonpos : forall decimal y,
    decimal <= 0 -> float_of_int (10 ^ (- decimal)) = Ok y ->
    BaseGeometry.almost_equals self other decimal s
    = BaseGeometry.equals_exact self other (0.5 * y)%float s).
  { intros decimal y Hd Hy.
    unfold BaseGeometry.almost_equals, BaseGeometry.tolerance_of_decimal,
      ten_pow.
    destruct (Z.leb_spec 0 (- decimal)); [|lia].
    cbn [half_times]. rewrite Hy. reflexivity. }
  assert (Hsix : BaseGeometry.almost_equals self other 6 s
    = BaseGeometry.equals_exact self other 0.5e-6%float s).
  { rewrite (Hpos 6 (-6)%float) by (lia || exact float_of_minus_six).
    now rewrite Hpow, half_of_a_millionth. }
  split; [exact Hpos|]. split; [exact Hnonpos|]. split; [|split; [|split]].
  - intros decimal e [[Hd He]|[Hd He]];
      unfold BaseGeometry.almost_equals, BaseGeometry.tolerance_of_decimal,
        ten_pow.
    + destruct (Z.leb_spec 0 (- decimal)); [lia|]. rewrite He. reflexivity.
    + destruct (Z.leb_spec 0 (- decimal)); [|lia].
      cbn [half_times]. rewrite He. reflexivity.
  - rewrite (Hnonpos 0 1%float) by (lia || exact float_of_one).
    reflexivity.
  - exact Hsix.
  - exact Hsix.
Qed.

Lemma almost_equals_is_equals_exact_witness :
  pow (Libm := Toy.libm) 10%float (-6)%float = 1e-6%float
  /\ BaseGeometry.almost_equals_default (H0 := Toy.tolerant_backend)
       (H1 := Toy.libm) Toy.point Toy.multipoint Toy.s0
     = (Ok true, Toy.s0)
  /\ BaseGeometry.almost_equals (H0 := Toy.tolerant_backend)
       (H1 := Toy.libm) Toy.point Toy.multipoint 0 Toy.s0
     = (Ok false, Toy.s0).
Proof.
  assert (Hpow : pow (Libm := Toy.libm) 10%float (-6)%float = 1e-6%float)
    by (vm_compute; reflexivity).
  split; [exact Hpow|].
  destruct (@almost_equals_is_equals_exact Toy.engine Toy.tolerant_backend
              Toy.libm Toy.point Toy.multipoint Toy.s0 Hpow)
    as (_ & _ & _ & Hzero & _ & Hdefault).
  split.
  - rewrite Hdefault. vm_compute. reflexivity.
  - rewrite Hzero. vm_compute. reflexivity.
Defined.

(** * Further properties of the module *)

Lemma exceptNull_null_any `{GEOS} {A} (func : wrapper -> M A) (self : wrapper)
    (s : world) :
  truthy (__geom__ self) = false ->
  exceptNull func self s
  = (Raise (ValueError "Null geometry supports no operations"), s).
Proof.
  intros Hnull. unfold exceptNull, BaseGeometryCore._get_geom.
  now rewrite Hnull.
Qed.

Lemma exceptNull_some_any `{GEOS} {A} (func : wrapper -> M A) (self : wrapper)
    (s : world) :
  truthy (__geom__ self) = true -> exceptNull func self s = func self s.
Proof.
  intros Hsome. unfold exceptNull, BaseGeometryCore._get_geom.
  now rewrite Hsome.
Qed.

(** ** The factory and the type name *)

Lemma list_getitem_ok_bounds {A} (l : list A) (i : Z) (x : A) :
  list_getitem l i = Ok x ->
  - Z.of_nat (List.length l) <= i < Z.of_nat (List.length l).
Proof.
  intros Hget.
  destruct (Z_lt_ge_dec i (- Z.of_nat (List.length l))) as [Hlow|Hlow].
  { rewrite list_getitem_outside in Hget by lia. discriminate Hget. }
  destruct (Z_lt_ge_dec i (Z.of_nat (List.length l))) as [Hhigh|Hhigh];
    [lia|].
  rewrite list_getitem_outside in Hget by lia. discriminate Hget.
Qed.

Lemma list_getitem_ok_elem {A} (l : list A) (i : Z) (x : A) :
  list_getitem l i = Ok x -> x ∈ l.
Proof.
  unfold list_getitem.
  destruct ((_ <? 0) || _); [intros Hx; discriminate Hx|].
  destruct (l !! _) as [y|] eqn:Hy; [|intros Hx; discriminate Hx].
  intros Hx. inversion Hx; subst. apply list_elem_of_lookup. eauto.
Qed.

Lemma list_getitem_total_in_bounds {A} (l : list A) (i : Z) :
  - Z.of_nat (List.length l) <= i < Z.of_nat (List.length l) ->
  exists x, list_getitem l i = Ok x.
Proof.
  intros Hi. destruct (Z_lt_ge_dec i 0) as [Hneg|Hpos].
  - destruct (list_getitem_from_end l i) as (x & _ & Hx); [lia|eauto].
  - destruct (list_getitem_in_range l i) as (x & _ & Hx); [lia|eauto].
Qed.

Lemma list_getitem_error {A} (l : list A) (i : Z) (e : exn) :
  list_getitem l i = Raise e -> e = IndexError "list index out of range".
Proof.
  unfold list_getitem.
  destruct ((_ <? 0) || _); [intros Hx; now inversion Hx|].
  destruct (l !! _); intros Hx; now inversion Hx.
Qed.

Lemma geom_factory_state `{GEOS} (g : raw) (parent : option wrapper)
    (s s1 : world) (r : result wrapper) :
  geom_factory g parent s = (r, s1) -> s1 = s.
Proof.
  destruct g as [p|]; [|intros Hx; now inversion Hx].
  unfold geom_factory. cbn [truthy negb].
  unfold mbind, M_mbind, M_bind. rewrite geometry_type_name_some.
  destruct (list_getitem GEOMETRY_TYPES _) as [name|e];
    [|intros Hx; now inversion Hx].
  unfold lift. destruct (getattr_shapely_geometry name) as [c|e];
    intros Hx; now inversion Hx.
Qed.

Lemma geom_factory_returns_iff `{GEOS} (g : raw) (parent : option wrapper)
    (s : world) :
  (exists ob, geom_factory g parent s = (Ok ob, s))
  <-> exists p, g = Some p /\ -8 <= GEOSGeomTypeId (w_heap s) (Some p) < 8.
Proof.
  split.
  - intros [ob Hrun]. destruct g as [p|]; [|discriminate Hrun].
    exists p. split; [reflexivity|].
    revert Hrun. unfold geom_factory. cbn [truthy negb].
    unfold mbind, M_mbind, M_bind. rewrite geometry_type_name_some.
    destruct (list_getitem GEOMETRY_TYPES _) as [name|e] eqn:Hname;
      [|intros Hx; discriminate Hx].
    intros _. apply list_getitem_ok_bounds in Hname. cbn in Hname. lia.
  - intros (p & -> & Htag).
    destruct (list_getitem_total_in_bounds GEOMETRY_TYPES
                (GEOSGeomTypeId (w_heap s) (Some p))) as [name Hname];
      [cbn; lia|].
    destruct (registry_complete name) as [c Hc];
      [eapply list_getitem_ok_elem, Hname|].
    eexists. apply (geom_factory_some p parent s name c Hname Hc).
Qed.

(** X1: the factory never changes the engine state, so it never releases the
    reference it is given, whether it returns or raises; and it returns a
    wrapper exactly when the reference is not null and the engine's tag for it
    is a valid Python index of the table, that is, lies in -8..7. *)
Theorem geom_factory_outcome `{GEOS} (g : raw) (parent : option wrapper)
    (s : world) :
  (forall r s1, geom_factory g parent s = (r, s1) -> s1 = s)
  /\ ((exists ob, geom_factory g parent s = (Ok ob, s))
      <-> exists p, g = Some p
                    /\ -8 <= GEOSGeomTypeId (w_heap s) (Some p) < 8).
Proof.
  split; [intros r s1; apply geom_factory_state|].
  apply geom_factory_returns_iff.
Qed.

(** X2: [geometryType] never raises the type-name query's own error for a
    null geometry, because the guard runs first; it never changes the engine
    state; and the properties [type] and [geom_type] read the same value. *)
Theorem geometryType_never_reports_untyped `{GEOS} (self : wrapper)
    (s : world) :
  (forall s1, BaseGeometry.geometryType self s
              <> (Raise (ValueError "Null geometry has no type"), s1))
  /\ (forall r s1, BaseGeometry.geometryType self s = (r, s1) -> s1 = s)
  /\ getattr BaseGeometry.type self s = BaseGeometry.geometryType self s
  /\ getattr BaseGeometry.geom_type self s = BaseGeometry.geometryType self s.
Proof.
  assert (Hcases :
    BaseGeometry.geometryType self s
    = (Raise (ValueError "Null geometry supports no operations"), s)
    \/ exists p, BaseGeometry.geometryType self s
                 = (list_getitem GEOMETRY_TYPES
                      (GEOSGeomTypeId (w_heap s) (Some p)), s)).
  { destruct (__geom__ self) as [p|] eqn:Hg.
    - right. exists p. rewrite (geometryType_some self p s Hg).
      apply geometry_type_name_some.
    - left. apply exceptNull_null_any. now rewrite Hg. }
  split; [|split; [|split; reflexivity]].
  - intros s1 Hrun. destruct Hcases as [Hnull|[p Hsome]].
    + rewrite Hnull in Hrun. discriminate Hrun.
    + rewrite Hsome in Hrun.
      destruct (list_getitem GEOMETRY_TYPES _) as [name|e] eqn:Hget;
        [discriminate Hrun|].
      apply list_getitem_error in Hget. subst e. discriminate Hrun.
  - intros r s1 Hrun. destruct Hcases as [Hnull|[p Hsome]].
    + rewrite Hnull in Hrun. now inversion Hrun.
    + rewrite Hsome in Hrun. now inversion Hrun.
Qed.

(** ** The life of a wrapper *)

(** X3: a wrapper that has been destroyed is caught by the guard.  After
    [__del__] the wrapper has neither a reference nor a parent, and its type
    and its coordinates can no longer be read: both fail with the guard's
    error, without a call to the engine. *)
Theorem destroyed_wrapper_is_guarded `{GEOS} (self self' : wrapper)
    (s s1 : world) :
  BaseGeometry.__del__ self s = (Ok self', s1) ->
  __geom__ self' = None
  /\ Instance.__p__ self' = None
  /\ BaseGeometry.geometryType self' s1
     = (Raise (ValueError "Null geometry supports no operations"), s1)
  /\ getattr BaseGeometry.coords self' s1
     = (Raise (ValueError "Null geometry supports no operations"), s1).
Proof.
  intros Hdel.
  destruct (del_clears self s) as (w & s2 & Hrun & Hg & Hp).
  change (BaseGeometryCore.__del__ self s = (Ok self', s1)) in Hdel.
  change (BaseGeometryCore.__del__ self s = (Ok w, s2)) in Hrun.
  rewrite Hdel in Hrun. inversion Hrun; subst w s2.
  split; [exact Hg|]. split; [exact Hp|].
  split; apply exceptNull_null_any; now rewrite Hg.
Qed.

Lemma destroyed_wrapper_is_guarded_witness :
  exists self',
    BaseGeometry.__del__ (H := Toy.engine) Toy.point Toy.s0
    = (Ok self', @World Toy.engine (delete 11%positive Toy.store) [11%positive])
    /\ BaseGeometry.geometryType self'
         (@World Toy.engine (delete 11%positive Toy.store) [11%positive])
       = (Raise (ValueError "Null geometry supports no operations"),
          @World Toy.engine (delete 11%positive Toy.store) [11%positive]).
Proof.
  exists (Wrapper C_Point None None (Some 3) false).
  split; [reflexivity|].
  apply (@destroyed_wrapper_is_guarded Toy.engine Toy.point _ Toy.s0 _).
  reflexivity.
Defined.



(** ** The array protocol and the coordinates of the base class *)

(** X5: [array_interface_base] checks the byte order first and reads
    [self.ctypes] second.  With a byte order that is neither little nor big it
    raises [ValueError] whatever the class; with [ctypes] as the base class
    and the multi-part class declare it, it never returns and raises
    [NotImplementedError] for either byte order; with a [ctypes] that returns
    a buffer it returns version 3, that buffer, and the type string of the
    byte order. *)
Theorem array_interface_base_outcome `{GEOS} (byteorder : string)
    (ctypes_of_class : property buffer_object unit) (self : wrapper)
    (s : world) :
  (byteorder <> "little" -> byteorder <> "big" ->
   BaseGeometry.array_interface_base byteorder ctypes_of_class self s
   = (Raise (ValueError
        "Unsupported byteorder: neither little nor big-endian"), s))
  /\ (byteorder = "little" \/ byteorder = "big" ->
      fails_with UnsupportedOperationError
        (BaseGeometry.array_interface_base byteorder BaseGeometry.ctypes self)
        s
      /\ fails_with UnsupportedOperationError
           (BaseGeometry.array_interface_base byteorder
              BaseMultiPartGeometry.ctypes self) s)
  /\ (forall a s1,
        BaseGeometry.array_interface_base byteorder BaseGeometry.ctypes self s
        <> (Ok a, s1)
        /\ BaseGeometry.array_interface_base byteorder
             BaseMultiPartGeometry.ctypes self s <> (Ok a, s1))
  /\ (forall get b s1,
        fget ctypes_of_class = Some get -> get self s = (Ok b, s1) ->
        BaseGeometry.array_interface_base "little" ctypes_of_class self s
        = (Ok (ArrayInterface 3 "<f8" b), s1)
        /\ BaseGeometry.array_interface_base "big" ctypes_of_class self s
           = (Ok (ArrayInterface 3 ">f8" b), s1)).
Proof.
  split; [|split; [|split]].
  - intros Hl Hb. unfold BaseGeometry.array_interface_base.
    apply String.eqb_neq in Hl, Hb. rewrite Hl, Hb. reflexivity.
  - intros [->| ->]; split; eexists _, _; split; reflexivity.
  - intros a s1. unfold BaseGeometry.array_interface_base.
    destruct (String.eqb byteorder "little");
      [split; intros Hx; discriminate Hx|].
    destruct (String.eqb byteorder "big");
      split; intros Hx; discriminate Hx.
  - intros get b s1 Hget Hrun. unfold BaseGeometry.array_interface_base.
    cbn [String.eqb Ascii.eqb Bool.eqb]. unfold mbind, M_mbind, M_bind.
    cbn [mret M_mret M_ret]. unfold getattr. rewrite Hget, Hrun.
    split; reflexivity.
Qed.

(** X6: on the base class the coordinates can be read exactly when the
    wrapper has a reference: the result is then a view of that same wrapper,
    made without a call to the engine, and otherwise the guard's error.
    Assigning the coordinates is not guarded: it raises [NotImplementedError]
    whether or not the wrapper has a reference. *)
Theorem base_coords_access `{GEOS} (self : wrapper) (ob : coordinates)
    (s : world) :
  getattr BaseGeometry.coords self s
  = (if truthy (__geom__ self) then Ok (CoordinateSequence self)
     else Raise (ValueError "Null geometry supports no operations"), s)
  /\ setattr BaseGeometry.coords self ob s
     = (Raise (NotImplementedError
          "set_coords must be provided by derived classes"), s).
Proof.
  split; [|reflexivity].
  destruct (truthy (__geom__ self)) eqn:Hg.
  - change (getattr BaseGeometry.coords self s)
      with (exceptNull (fun w => mret (CoordinateSequence w)) self s).
    now rewrite exceptNull_some_any.
  - now apply exceptNull_null_any.
Qed.

(** ** The methods that wrap a backend result *)

Lemma call_topological_run `{Implementation} (t : topological)
    (self : wrapper) :
  call_topological t self
  = backend_result t self ≫= (fun g => geom_factory g None).
Proof. destruct t; reflexivity. Qed.

(** X7: how the eleven wrapping methods fail.  An error of the backend passes
    through unchanged; a null result of the backend becomes the factory's
    [ValueError], never an empty wrapper; and in every case the state the
    method leaves is the state the backend left, so the method itself releases
    nothing. *)
Theorem topological_failures `{Implementation} (t : topological)
    (self : wrapper) (s : world) :
  (forall e s1, backend_result t self s = (Raise e, s1) ->
     call_topological t self s = (Raise e, s1))
  /\ (forall s1, backend_result t self s = (Ok None, s1) ->
        call_topological t self s
        = (Raise (ValueError
             "No Shapely geometry can be created from null value"), s1))
  /\ (forall r s2, call_topological t self s = (r, s2) ->
        snd (backend_result t self s) = s2).
Proof.
  rewrite call_topological_run. unfold mbind, M_mbind, M_bind.
  split; [|split].
  - intros e s1 Hb. now rewrite Hb.
  - intros s1 Hb. now rewrite Hb.
  - intros r s2. destruct (backend_result t self s) as [[g|e] s1].
    + intros Hrun. apply geom_factory_state in Hrun. now subst.
    + intros Hrun. now inversion Hrun.
Qed.

Lemma topological_failures_witness :
  BaseGeometry.boundary (H0 := Toy.null_backend) Toy.point Toy.s0
  = (Raise (ValueError "No Shapely geometry can be created from null value"),
     Toy.s0).
Proof.
  destruct (@topological_failures Toy.engine Toy.null_backend T_boundary
              Toy.point Toy.s0) as (_ & Hnull & _).
  apply Hnull. vm_compute. reflexivity.
Defined.

(** X8: what the eleven wrapping methods return.  When the backend returns a
    reference [p] whose tag the table covers, the method returns a new wrapper
    that holds [p] and owns it, has the class the tag names, has no parent and
    has dimension 2, whatever the dimension of the receiver. *)
Theorem topological_result `{Implementation} (t : topological)
    (self : wrapper) (p : ptr) (s s1 : world) :
  backend_result t self s = (Ok (Some p), s1) ->
  0 <= GEOSGeomTypeId (w_heap s1) (Some p) < 8 ->
  exists c name,
    GEOMETRY_TYPES !! Z.to_nat (GEOSGeomTypeId (w_heap s1) (Some p))
    = Some name
    /\ shapely_geometry !! name = Some c
    /\ call_topological t self s
       = (Ok (Wrapper c (Some p) None (Some 2) false), s1).
Proof.
  intros Hb Htag.
  destruct (list_getitem_in_range GEOMETRY_TYPES _ Htag) as (name & Hl & Hget).
  destruct (registry_complete name) as [c Hc].
  { apply list_elem_of_lookup. eauto. }
  exists c, name. split; [exact Hl|]. split.
  { unfold getattr_shapely_geometry in Hc.
    destruct (shapely_geometry !! name) as [c'|]; [|discriminate Hc].
    now inversion Hc. }
  rewrite call_topological_run. unfold mbind, M_mbind, M_bind. rewrite Hb.
  apply (geom_factory_some p None s1 name c Hget Hc).
Qed.

Lemma topological_result_witness :
  BaseGeometry.union (H0 := Toy.backend) Toy.point Toy.null_point Toy.s0
  = (Ok (Wrapper C_MultiPoint (Some 10%positive) None (Some 2) false),
     Toy.s0).
Proof.
  destruct (@topological_result Toy.engine Toy.backend
              (T_union Toy.null_point) Toy.point 10%positive Toy.s0 Toy.s0)
    as (c & name & Hname & Hc & Hrun).
  - vm_compute. reflexivity.
  - vm_compute. split; [discriminate|reflexivity].
  - vm_compute in Hname. inversion Hname; subst name.
    vm_compute in Hc. inversion Hc; subst c. exact Hrun.
Defined.

(** ** More on part sequences *)

Section MoreSequences.

Context `{GEOS}.
Implicit Types (self : GeometrySequence.t) (i : Z) (s : world) (g : wrapper).

Lemma heterogeneous_item_state self i s s1 (r : result wrapper) :
  HeterogeneousGeometrySequence._get_geom_item self i s = (r, s1) -> s1 = s.
Proof.
  unfold HeterogeneousGeometrySequence._get_geom_item.
  unfold mbind, M_mbind, M_bind, query.
  destruct (geom_factory _ None s) as [[g0|e] s'] eqn:Hf;
    apply geom_factory_state in Hf; subst s'; intros Hx; now inversion Hx.
Qed.

Lemma heterogeneous_item_some self i s (p : ptr) (name : string)
    (c : pyclass) :
  GEOSGetGeometryN (w_heap s) (GeometrySequence._geom self) i = Some p ->
  list_getitem GEOMETRY_TYPES (GEOSGeomTypeId (w_heap s) (Some p)) = Ok name ->
  getattr_shapely_geometry name = Ok c ->
  HeterogeneousGeometrySequence._get_geom_item self i s
  = (Ok (Wrapper c (Some p) None (Some 2) true), s).
Proof.
  intros Hsub Hname Hc. unfold HeterogeneousGeometrySequence._get_geom_item.
  unfold mbind, M_mbind, M_bind, query. rewrite Hsub.
  rewrite (geom_factory_some p None s name c Hname Hc). reflexivity.
Qed.

Lemma heterogeneous_item_inv self i s s1 g :
  HeterogeneousGeometrySequence._get_geom_item self i s = (Ok g, s1) ->
  exists p name,
    GEOSGetGeometryN (w_heap s) (GeometrySequence._geom self) i = Some p
    /\ list_getitem GEOMETRY_TYPES (GEOSGeomTypeId (w_heap s) (Some p))
       = Ok name
    /\ shapely_geometry !! name = Some (Instance.__class__ g)
    /\ g = Wrapper (Instance.__class__ g) (Some p) None (Some 2) true
    /\ s1 = s.
Proof.
  unfold HeterogeneousGeometrySequence._get_geom_item.
  unfold mbind, M_mbind, M_bind, query.
  destruct (GEOSGetGeometryN _ _ i) as [p|]; [|intros Hx; discriminate Hx].
  unfold geom_factory. cbn [truthy negb].
  unfold mbind, M_mbind, M_bind. rewrite geometry_type_name_some.
  destruct (list_getitem GEOMETRY_TYPES _) as [name|e] eqn:Hname;
    [|intros Hx; discriminate Hx].
  unfold lift, getattr_shapely_geometry.
  destruct (shapely_geometry !! name) as [c|] eqn:Hc;
    [|intros Hx; discriminate Hx].
  cbn. intros Hx. inversion Hx; subst. exists p, name.
  split; [reflexivity|]. split; [exact Hname|]. split; [exact Hc|].
  split; reflexivity.
Qed.

(** Items of a sequence whose item retrieval keeps the state. *)
Lemma items_from_pure self (count : nat) i s s1 (gs : list wrapper) :
  (forall j s' s'' (r : result wrapper),
     PartSequence._get_geom_item self j s' = (r, s'') -> s'' = s') ->
  PartSequence.items_from self i count s = (Ok gs, s1) ->
  s1 = s
  /\ List.length gs = count
  /\ forall (k : nat) g, gs !! k = Some g ->
       PartSequence._get_geom_item self (i + Z.of_nat k) s = (Ok g, s).
Proof.
  intros Hpure. revert i gs s1.
  induction count as [|count IH]; intros i gs s1.
  - cbn. intros Hx. inversion Hx; subst.
    repeat split; try reflexivity. intros k g Hk. discriminate Hk.
  - cbn [PartSequence.items_from]. unfold mbind, M_mbind, M_bind.
    destruct (PartSequence._get_geom_item self i s) as [[g0|e] s'] eqn:Hitem;
      [|intros Hx; discriminate Hx].
    pose proof (Hpure _ _ _ _ Hitem) as ->.
    destruct (PartSequence.items_from self (i + 1) count s)
      as [[gs'|e] s''] eqn:Hrest; [|intros Hx; discriminate Hx].
    destruct (IH _ _ _ Hrest) as (-> & Hlen & Hnth).
    cbn. intros Hx. inversion Hx; subst. split; [reflexivity|].
    split; [reflexivity|].
    intros [|k] g Hk.
    + cbn in Hk. inversion Hk; subst. now rewrite Z.add_0_r.
    + cbn in Hk. specialize (Hnth k g Hk).
      now replace (i + Z.of_nat (S k)) with (i + 1 + Z.of_nat k) by lia.
Qed.

Lemma items_from_total self (count : nat) i s :
  (forall k : nat, (k < count)%nat ->
     exists g, PartSequence._get_geom_item self (i + Z.of_nat k) s
               = (Ok g, s)) ->
  exists gs, PartSequence.items_from self i count s = (Ok gs, s).
Proof.
  revert i. induction count as [|count IH]; intros i Hall.
  - exists []. reflexivity.
  - destruct (Hall O) as [g0 Hg0]; [lia|].
    rewrite Z.add_0_r in Hg0.
    destruct (IH (i + 1)) as [gs Hgs].
    { intros k Hk. destruct (Hall (S k)) as [g Hg]; [lia|]. exists g.
      now replace (i + 1 + Z.of_nat k) with (i + Z.of_nat (S k)) by lia. }
    exists (g0 :: gs). cbn [PartSequence.items_from].
    unfold mbind, M_mbind, M_bind. rewrite Hg0, Hgs. reflexivity.
Qed.

Lemma iter_run self s :
  PartSequence.__iter__ self s
  = match PartSequence.items_from (GeometrySequence._update self) 0
            (Z.to_nat (child_count self s)) s with
    | (Ok gs, s1) => (Ok (gs, GeometrySequence._update self), s1)
    | (Raise e, s1) => (Raise e, s1)
    end.
Proof.
  unfold PartSequence.__iter__. unfold mbind, M_mbind, M_bind.
  rewrite len_run. reflexivity.
Qed.

End MoreSequences.

(** X9: a part sequence never trusts its cache.  The length, indexed access
    and iteration give the same outcome whatever reference and dimension the
    sequence has cached: they depend on the parent alone.  The sequence that
    comes back caches the parent's reference and dimension. *)
Theorem sequence_resynchronizes `{GEOS} (self : GeometrySequence.t)
    (g : raw) (ndim : option Z) (i : Z) (s : world) :
  PartSequence.__len__ (with_cache self g ndim) s = PartSequence.__len__ self s
  /\ PartSequence.__getitem__ (with_cache self g ndim) i s
     = PartSequence.__getitem__ self i s
  /\ PartSequence.__iter__ (with_cache self g ndim) s
     = PartSequence.__iter__ self s
  /\ PartSequence.__len__ self s
     = (Ok (GEOSGetNumGeometries (w_heap s)
              (__geom__ (GeometrySequence.__p__ self)),
            with_cache self (__geom__ (GeometrySequence.__p__ self))
              (Instance._ndim (GeometrySequence.__p__ self))), s).
Proof.
  assert (Hup : GeometrySequence._update (with_cache self g ndim)
                = GeometrySequence._update self) by reflexivity.
  split; [|split; [|split]].
  - rewrite !len_run. now rewrite Hup.
  - rewrite !getitem_run. now rewrite Hup.
  - rewrite !iter_run. now rewrite Hup.
  - reflexivity.
Qed.

(** X10: a parent for which the engine reports no members, or a negative
    count, has an empty sequence: every index raises the index error and
    iteration yields nothing, and in both cases neither the element
    constructor nor the member query runs, so the state is unchanged. *)
Theorem sequence_without_members `{GEOS} (self : GeometrySequence.t) (i : Z)
    (s : world) :
  GEOSGetNumGeometries (w_heap s) (__geom__ (GeometrySequence.__p__ self)) <= 0 ->
  PartSequence.__getitem__ self i s
  = (Raise (IndexError "index out of range"), s)
  /\ PartSequence.__iter__ self s
     = (Ok ([], GeometrySequence._update self), s).
Proof.
  intros Hn. fold (child_count self s) in Hn. split.
  - apply getitem_outside. lia.
  - rewrite iter_run. replace (Z.to_nat (child_count self s)) with O by lia.
    reflexivity.
Qed.

Lemma sequence_without_members_witness :
  PartSequence.__getitem__ Toy.members_of_point 0 Toy.s0
  = (Raise (IndexError "index out of range"), Toy.s0)
  /\ PartSequence.__iter__ Toy.members_of_point Toy.s0
     = (Ok ([], GeometrySequence._update Toy.members_of_point), Toy.s0).
Proof.
  apply (@sequence_without_members Toy.engine Toy.members_of_point 0 Toy.s0).
  vm_compute. discriminate.
Defined.

(** X11: the shape of a child of a heterogeneous sequence.  Whenever indexed
    access returns a wrapper, the state is unchanged; the wrapper holds the
    reference the engine gave for the index, which is not null, and is marked
    as aliasing; its class is the one its own tag names, and [geometryType]
    on it gives that name; it has dimension 2, whatever the dimension of the
    parent; and it has no reference to the parent. *)
Theorem heterogeneous_child `{GEOS} (self self' : GeometrySequence.t) (i : Z)
    (s s1 : world) (g : wrapper) :
  GeometrySequence.__class__ self = C_HeterogeneousGeometrySequence ->
  PartSequence.__getitem__ self i s = (Ok (g, self'), s1) ->
  s1 = s
  /\ __geom__ g
     = GEOSGetGeometryN (w_heap s) (__geom__ (GeometrySequence.__p__ self)) i
  /\ __geom__ g <> None
  /\ _owned g = true
  /\ Instance._ndim g = Some 2
  /\ Instance.__p__ g = None
  /\ exists name,
       BaseGeometry.geometryType g s = (Ok name, s)
       /\ shapely_geometry !! name = Some (Instance.__class__ g).
Proof.
  intros Hclass. rewrite getitem_run.
  destruct ((i + child_count self s <? 0) || (child_count self s <=? i));
    [intros Hx; discriminate Hx|].
  unfold PartSequence._get_geom_item.
  change (GeometrySequence.__class__ (GeometrySequence._update self))
    with (GeometrySequence.__class__ self). rewrite Hclass.
  destruct (HeterogeneousGeometrySequence._get_geom_item _ i s)
    as [[g0|e] s'] eqn:Hitem; [|intros Hx; discriminate Hx].
  intros Hx. inversion Hx; subst g0 self' s'.
  destruct (heterogeneous_item_inv _ _ _ _ _ Hitem)
    as (p & name & Hsub & Hname & Hc & Hg & ->).
  cbn in Hsub. unfold BaseGeometry._get_geom in Hsub.
  destruct g as [c0 g1 p1 n1 o1]. cbn in Hg, Hc.
  inversion Hg; subst g1 p1 n1 o1.
  split; [reflexivity|]. split; [symmetry; exact Hsub|].
  split; [discriminate|]. repeat (split; [reflexivity|]).
  exists name. split; [|exact Hc].
  rewrite (geometryType_some _ p) by reflexivity.
  now rewrite geometry_type_name_some, Hname.
Qed.

Lemma heterogeneous_child_witness :
  PartSequence.__getitem__ Toy.multipoint_members 1 Toy.s0
  = (Ok (Wrapper C_Point (Some 12%positive) None (Some 2) true,
         GeometrySequence._update Toy.multipoint_members), Toy.s0)
  /\ Instance._ndim (Wrapper C_Point (Some 12%positive) None (Some 2) true)
     = Some 2.
Proof.
  split; [vm_compute; reflexivity|].
  apply (@heterogeneous_child Toy.engine Toy.multipoint_members
           (GeometrySequence._update Toy.multipoint_members) 1 Toy.s0 Toy.s0
           (Wrapper C_Point (Some 12%positive) None (Some 2) true)).
  - reflexivity.
  - vm_compute. reflexivity.
Defined.

(** X12: when indexed access on a heterogeneous sequence succeeds.  For an
    index in 0..N-1 it returns a wrapper, leaving the state as it was, exactly
    when the engine's reference for that member is not null and the member's
    tag lies in -8..7. *)
Theorem heterogeneous_getitem_returns_iff `{GEOS} (self : GeometrySequence.t)
    (i : Z) (s : world) :
  GeometrySequence.__class__ self = C_HeterogeneousGeometrySequence ->
  0 <= i < GEOSGetNumGeometries (w_heap s)
             (__geom__ (GeometrySequence.__p__ self)) ->
  (exists g, PartSequence.__getitem__ self i s
             = (Ok (g, GeometrySequence._update self), s))
  <-> exists p,
        GEOSGetGeometryN (w_heap s) (__geom__ (GeometrySequence.__p__ self)) i
        = Some p
        /\ -8 <= GEOSGeomTypeId (w_heap s) (Some p) < 8.
Proof.
  intros Hclass Hi. fold (child_count self s) in Hi.
  rewrite getitem_inside by lia.
  unfold PartSequence._get_geom_item.
  change (GeometrySequence.__class__ (GeometrySequence._update self))
    with (GeometrySequence.__class__ self). rewrite Hclass. split.
  - intros [g Hrun].
    destruct (HeterogeneousGeometrySequence._get_geom_item _ i s)
      as [[g0|e] s'] eqn:Hitem; [|discriminate Hrun].
    destruct (heterogeneous_item_inv _ _ _ _ _ Hitem)
      as (p & name & Hsub & Hname & _).
    exists p. split; [exact Hsub|].
    apply list_getitem_ok_bounds in Hname. cbn in Hname. lia.
  - intros (p & Hsub & Htag).
    destruct (list_getitem_total_in_bounds GEOMETRY_TYPES
                (GEOSGeomTypeId (w_heap s) (Some p))) as [name Hname];
      [cbn; lia|].
    destruct (registry_complete name) as [c Hc];
      [eapply list_getitem_ok_elem, Hname|].
    eexists.
    rewrite (heterogeneous_item_some (GeometrySequence._update self) i s p
               name c Hsub Hname Hc).
    reflexivity.
Qed.

Lemma heterogeneous_getitem_returns_iff_witness :
  exists g, PartSequence.__getitem__ Toy.multipoint_members 2 Toy.s0
            = (Ok (g, GeometrySequence._update Toy.multipoint_members),
               Toy.s0).
Proof.
  apply (@heterogeneous_getitem_returns_iff Toy.engine
           Toy.multipoint_members 2 Toy.s0).
  - reflexivity.
  - vm_compute. split; [discriminate|reflexivity].
  - exists 13%positive. split; [reflexivity|].
    vm_compute. split; [discriminate|reflexivity].
Defined.

(** X13: indexed access on a homogeneous sequence inside the bounds does not
    look at the member.  If the element constructor returns an instance, the
    access returns that instance with the engine's reference for the index,
    null or not, and the aliasing mark; class, dimension and parent are those
    the constructor gave, not those of the member or of the sequence.  If the
    constructor raises, the access raises the same error. *)
Theorem homogeneous_child `{GEOS} (self : GeometrySequence.t)
    (make : M wrapper) (i : Z) (s : world) :
  GeometrySequence.__class__ self = C_GeometrySequence ->
  GeometrySequence._factory self = Some make ->
  - GEOSGetNumGeometries (w_heap s) (__geom__ (GeometrySequence.__p__ self))
    <= i
    < GEOSGetNumGeometries (w_heap s) (__geom__ (GeometrySequence.__p__ self)) ->
  (forall g0 s1, make s = (Ok g0, s1) ->
     PartSequence.__getitem__ self i s
     = (Ok (Wrapper (Instance.__class__ g0)
              (GEOSGetGeometryN (w_heap s1)
                 (__geom__ (GeometrySequence.__p__ self)) i)
              (Instance.__p__ g0) (Instance._ndim g0) true,
            GeometrySequence._update self), s1))
  /\ (forall e s1, make s = (Raise e, s1) ->
        PartSequence.__getitem__ self i s = (Raise e, s1)).
Proof.
  intros Hclass Hmake Hi. fold (child_count self s) in Hi.
  rewrite getitem_inside by lia.
  unfold PartSequence._get_geom_item.
  change (GeometrySequence.__class__ (GeometrySequence._update self))
    with (GeometrySequence.__class__ self). rewrite Hclass. split.
  - intros g0 s1 Hrun.
    rewrite (homogeneous_item _ i s make g0 s1) by (exact Hmake || exact Hrun).
    reflexivity.
  - intros e s1 Hrun. unfold GeometrySequence._get_geom_item.
    change (GeometrySequence._factory (GeometrySequence._update self))
      with (GeometrySequence._factory self). rewrite Hmake.
    unfold mbind, M_mbind, M_bind. rewrite Hrun. reflexivity.
Qed.

Lemma homogeneous_child_witness :
  PartSequence.__getitem__ Toy.points_of_collection 1 Toy.s0
  = (Ok (Wrapper C_Point None None None true,
         GeometrySequence._update Toy.points_of_collection), Toy.s0).
Proof.
  destruct (@homogeneous_child Toy.engine Toy.points_of_collection Toy.Point
              1 Toy.s0) as [Hok _].
  - reflexivity.
  - reflexivity.
  - vm_compute. split; discriminate || reflexivity.
  - apply (Hok Toy.null_point Toy.s0). reflexivity.
Defined.

Lemma heterogeneous_items_pure `{GEOS} (self : GeometrySequence.t) :
  GeometrySequence.__class__ self = C_HeterogeneousGeometrySequence ->
  forall j s' s'' (r : result wrapper),
    PartSequence._get_geom_item (GeometrySequence._update self) j s' = (r, s'')
    -> s'' = s'.
Proof.
  intros Hclass j s' s'' r. unfold PartSequence._get_geom_item.
  change (GeometrySequence.__class__ (GeometrySequence._update self))
    with (GeometrySequence.__class__ self). rewrite Hclass.
  apply heterogeneous_item_state.
Qed.

(** X14: iteration and indexed access of a heterogeneous sequence agree.
    When the iteration runs to its end it leaves the state as it was and
    yields as many wrappers as the engine reports members, and the wrapper at
    position k is the one indexed access returns for k.  Conversely, when
    indexed access returns for every index in 0..N-1, the iteration runs to
    its end. *)
Theorem heterogeneous_iteration `{GEOS} (self : GeometrySequence.t)
    (s : world) :
  GeometrySequence.__class__ self = C_HeterogeneousGeometrySequence ->
  (forall gs self' s1,
     PartSequence.__iter__ self s = (Ok (gs, self'), s1) ->
     s1 = s
     /\ self' = GeometrySequence._update self
     /\ List.length gs
        = Z.to_nat (GEOSGetNumGeometries (w_heap s)
                      (__geom__ (GeometrySequence.__p__ self)))
     /\ forall (k : nat) g, gs !! k = Some g ->
          PartSequence.__getitem__ self (Z.of_nat k) s
          = (Ok (g, GeometrySequence._update self), s))
  /\ ((forall i,
         0 <= i < GEOSGetNumGeometries (w_heap s)
                    (__geom__ (GeometrySequence.__p__ self)) ->
         exists g, PartSequence.__getitem__ self i s
                   = (Ok (g, GeometrySequence._update self), s)) ->
      exists gs, PartSequence.__iter__ self s
                 = (Ok (gs, GeometrySequence._update self), s)).
Proof.
  intros Hclass. fold (child_count self s). split.
  - intros gs self' s1. rewrite iter_run.
    destruct (PartSequence.items_from _ 0 _ s) as [[gs'|e] s'] eqn:Hitems;
      [|intros Hx; discriminate Hx].
    intros Hx. inversion Hx; subst gs' self' s'.
    destruct (items_from_pure _ _ _ _ _ _
                (heterogeneous_items_pure self Hclass) Hitems)
      as (-> & Hlen & Hnth).
    split; [reflexivity|]. split; [reflexivity|]. split; [exact Hlen|].
    intros k g Hk. pose proof (lookup_lt_Some _ _ _ Hk) as Hlt.
    rewrite Hlen in Hlt. rewrite getitem_inside by lia.
    specialize (Hnth k g Hk). rewrite Z.add_0_l in Hnth.
    now rewrite Hnth.
  - intros Hall. rewrite iter_run.
    destruct (items_from_total (GeometrySequence._update self)
                (Z.to_nat (child_count self s)) 0 s) as [gs Hgs].
    { intros k Hk. destruct (Hall (Z.of_nat k)) as [g Hg]; [lia|].
      rewrite getitem_inside in Hg by lia. rewrite Z.add_0_l.
      destruct (PartSequence._get_geom_item _ (Z.of_nat k) s)
        as [[g0|e] s'] eqn:Hitem; [|discriminate Hg].
      pose proof (heterogeneous_items_pure self Hclass _ _ _ _ Hitem) as ->.
      eauto. }
    exists gs. now rewrite Hgs.
Qed.

Lemma heterogeneous_iteration_witness :
  PartSequence.__iter__ Toy.multipoint_members Toy.s0
  = (Ok ([Wrapper C_Point (Some 11%positive) None (Some 2) true;
          Wrapper C_Point (Some 12%positive) None (Some 2) true;
          Wrapper C_Point (Some 13%positive) None (Some 2) true],
         GeometrySequence._update Toy.multipoint_members), Toy.s0)
  /\ PartSequence.__getitem__ Toy.multipoint_members (Z.of_nat 2) Toy.s0
     = (Ok (Wrapper C_Point (Some 13%positive) None (Some 2) true,
            GeometrySequence._update Toy.multipoint_members), Toy.s0).
Proof.
  assert (Hrun : PartSequence.__iter__ Toy.multipoint_members Toy.s0
    = (Ok ([Wrapper C_Point (Some 11%positive) None (Some 2) true;
            Wrapper C_Point (Some 12%positive) None (Some 2) true;
            Wrapper C_Point (Some 13%positive) None (Some 2) true],
           GeometrySequence._update Toy.multipoint_members), Toy.s0))
    by (vm_compute; reflexivity).
  split; [exact Hrun|].
  destruct (@heterogeneous_iteration Toy.engine Toy.multipoint_members Toy.s0)
    as [Hagree _]; [reflexivity|].
  destruct (Hagree _ _ _ Hrun) as (_ & _ & _ & Hnth).
  apply (Hnth 2%nat). reflexivity.
Defined.

(** X15: iteration never hands out an owning wrapper.  For a sequence of
    either class, every wrapper of an iteration that ran to its end is marked
    as aliasing, and destroying it in the state the iteration left returns
    without a release. *)
Theorem iterated_children_alias `{GEOS} (self self' : GeometrySequence.t)
    (s s1 : world) (gs : list wrapper) :
  PartSequence.__iter__ self s = (Ok (gs, self'), s1) ->
  Forall (fun g =>
            _owned g = true
            /\ BaseGeometry.__del__ g s1
               = (Ok (set___p__ None (set___geom__ None g)), s1)) gs.
Proof.
  intros Hrun. eapply Forall_impl.
  - eapply iter_children_never_release, Hrun.
  - intros g Ho. split; [exact Ho | now apply del_aliasing].
Qed.

Lemma iterated_children_alias_witness :
  Forall (fun g =>
            _owned g = true
            /\ BaseGeometry.__del__ (H := Toy.engine) g Toy.s0
               = (Ok (set___p__ None (set___geom__ None g)), Toy.s0))
    [Wrapper C_Point (Some 11%positive) None None true;
     Wrapper C_Point (Some 12%positive) None None true;
     Wrapper C_Point (Some 13%positive) None None true].
Proof.
  apply (@iterated_children_alias Toy.engine Toy.points
           (GeometrySequence._update Toy.points) Toy.s0 Toy.s0).
  vm_compute. reflexivity.
Defined.

(** ** Replacing the backend *)

(** X16: a wrapping method depends on one entry of the operation table, the
    one under its own key; for [simplify] and [interpolate] the flag selects
    the key.  Two backends that agree on that entry give the same outcome,
    whatever their other entries are. *)
Theorem topological_depends_on_own_entry `{GEOS}
    (first second : Implementation) (t : topological) (self : wrapper) :
  imp (Implementation := first) !! topological_key t
  = imp (Implementation := second) !! topological_key t ->
  call_topological (H0 := first) t self
  = call_topological (H0 := second) t self.
Proof.
  intros Hentry. rewrite !call_topological_run. f_equal.
  destruct t as [| | | | d q | tol [|] | o | o | o | o | d [|]];
    cbn [topological_key] in Hentry; cbn [backend_result];
    unfold imp_unary_topo, imp_binary_topo, imp_real_topo, imp_buffer_topo;
    now rewrite Hentry.
Qed.

Lemma topological_depends_on_own_entry_witness :
  call_topological (H0 := Toy.backend) (T_union Toy.null_point) Toy.point
  = call_topological (H0 := Toy.union_backend) (T_union Toy.null_point)
      Toy.point.
Proof.
  apply (@topological_depends_on_own_entry Toy.engine Toy.backend
           Toy.union_backend (T_union Toy.null_point) Toy.point).
  vm_compute. reflexivity.
Defined.
